(** * A "Would You Rather" voting backend: shallow embedding of [main.py]

    The service is a thin REST layer over one MongoDB collection, ["prompt"].
    This development embeds the request handlers of [main.py] as functions
    in a state-and-exception monad over an explicit model of that collection
    and proves the properties listed in the specification.

    Modelling conventions.
    - A document is a Python [dict] with string keys: [gmap string value].
    - The collection is the list of its documents in natural (insertion)
      order.
    - The module-level handle [db] is [None] (storage not configured) or a
      database; it is a component of the world state threaded through the
      handlers.
    - The storage driver (pymongo / bson) is an external collaborator.  Its
      operations are modelled after their documented behaviour; wire-level
      limits of BSON (64-bit integers, 16 MB documents) are outside the
      model, integers are Python's unbounded [int].
    - A Python [str] is kept as the bytes of its UTF-8 encoding; [py_len]
      and [py_prefix] count and cut by characters, not by bytes.
    - The two sources of nondeterminism are explicit: the identifiers the
      driver generates ([new_ObjectId], the k-th generated identifier) and
      the document picked by [$sample] (an index supplied to the handler). *)

From Stdlib Require Import ZArith Strings.String Strings.Ascii Strings.Byte.
From stdpp Require Import sorting lexico orders base option gmap strings pretty list.

Local Open Scope string_scope.
Local Open Scope Z_scope.

(** ** Python text *)

(** In UTF-8 a character is one lead byte followed by its continuation
    bytes, which are the bytes 10xxxxxx. *)
Definition utf8_continuation (c : ascii) : bool :=
  (let n := N_of_ascii c in (128 <=? n) && (n <=? 191))%N.

(** [len(s)]: the number of characters. *)
Fixpoint py_len (s : string) : nat :=
  match s with
  | EmptyString => 0
  | String c s' => (if utf8_continuation c then 0 else 1) + py_len s'
  end%nat.

(** [s[:n]]: the first [n] characters. *)
Fixpoint py_prefix (n : nat) (s : string) : string :=
  match s with
  | EmptyString => EmptyString
  | String c s' =>
      if utf8_continuation c then String c (py_prefix n s')
      else match n with
           | O => EmptyString
           | S n' => String c (py_prefix n' s')
           end
  end.

(** ASCII whitespace ([Py_ISSPACE]): tab, line feed, vertical tab, form
    feed, carriage return and space.  It is what [bytes.fromhex] skips and
    what [int] strips. *)
Definition py_isspace (c : ascii) : bool :=
  (let n := N_of_ascii c in (9 <=? n) && (n <=? 13) || (n =? 32))%N.

(** ** Object identifiers (bson.ObjectId) *)

Global Instance byte_eq_dec : EqDecision byte := Byte.byte_eq_dec.

(** An [ObjectId] as the driver generates it and the store holds it:
    exactly 12 bytes. *)
Record ObjectId := mkObjectId {
  binary : list byte;
  binary_len : Nat.eqb (length binary) 12 = true
}.

Definition hex_char (n : N) : ascii :=
  match n with
  | 0 => "0" | 1 => "1" | 2 => "2" | 3 => "3" | 4 => "4" | 5 => "5"
  | 6 => "6" | 7 => "7" | 8 => "8" | 9 => "9" | 10 => "a" | 11 => "b"
  | 12 => "c" | 13 => "d" | 14 => "e" | _ => "f"
  end%N%char.

(** Value of one hexadecimal digit; both letter cases are accepted. *)
Definition hex_val (c : ascii) : option N :=
  (let n := N_of_ascii c in
   if (48 <=? n) && (n <=? 57) then Some (n - 48)
   else if (97 <=? n) && (n <=? 102) then Some (n - 87)
   else if (65 <=? n) && (n <=? 70) then Some (n - 55)
   else None)%N.

(** [binascii.hexlify]: two lowercase digits per byte. *)
Fixpoint hexlify (bs : list byte) : string :=
  match bs with
  | [] => EmptyString
  | b :: bs' =>
      String (hex_char (Byte.to_N b / 16))
        (String (hex_char (Byte.to_N b mod 16)) (hexlify bs'))
  end%N.

(** [bytes.fromhex]: pairs of hexadecimal digits; ASCII whitespace before
    a pair (and at the end) is skipped, anything else is a [ValueError]
    (here: [None]). *)
Fixpoint fromhex (s : string) : option (list byte) :=
  match s with
  | EmptyString => Some []
  | String c1 s1 =>
      if py_isspace c1 then fromhex s1
      else match s1 with
           | String c2 s2 =>
               match hex_val c1, hex_val c2, fromhex s2 with
               | Some h, Some l, Some bs =>
                   match Byte.of_N (16 * h + l)%N with
                   | Some b => Some (b :: bs)
                   | None => None
                   end
               | _, _, _ => None
               end
           | EmptyString => None
           end
  end.

Definition ObjectId_of_bytes (bs : list byte) : option ObjectId :=
  match decide (Nat.eqb (length bs) 12 = true) with
  | left H => Some (mkObjectId bs H)
  | right _ => None
  end.

(** [ObjectId(s)] for a [str] argument, as bson's constructor validates
    it: [len(s) == 24] and [bytes.fromhex(s)] succeeds, otherwise
    [InvalidId] (here: [None]).  The result is the bytes the object
    keeps; they are fewer than 12 when the text holds whitespace. *)
Definition ObjectId_init (s : string) : option (list byte) :=
  if Nat.eqb (py_len s) 24 then fromhex s else None.

(** The identifier a text denotes: the constructor accepts the text and
    keeps 12 bytes, which is the case for 24 hexadecimal digits. *)
Definition ObjectId_parse (s : string) : option ObjectId :=
  match ObjectId_init s with
  | Some bs => ObjectId_of_bytes bs
  | None => None
  end.

(** [str(oid)]: 24 lowercase hexadecimal digits. *)
Definition ObjectId_str (o : ObjectId) : string := hexlify (binary o).

Global Instance ObjectId_eq_dec : EqDecision ObjectId.
Proof.
  intros [x Hx] [y Hy]. destruct (decide (x = y)) as [E|N].
  - left. subst y. f_equal. apply (proof_irrel _).
  - right. intros [= E]. by apply N.
Defined.

(** ** Documents *)

(** The values this program stores in, and reads from, a document. *)
Inductive value :=
| VNone
| VStr (s : string)
| VInt (z : Z)
| VOid (o : ObjectId).

Global Instance value_eq_dec : EqDecision value.
Proof. solve_decision. Defined.

Abbreviation doc := (gmap string value).

(** ** Exceptions and results *)

Inductive exn :=
| HTTPException (status_code : Z) (detail : string)
| TypeError
| ValueError
| ValidationError
| DuplicateKeyError
| OperationFailure.

Inductive result (A : Type) :=
| Ok (a : A)
| Raise (e : exn).
Arguments Ok {A} a.
Arguments Raise {A} e.

(** The status the framework answers with: an [HTTPException] carries its
    own, any other exception that escapes a handler is a 500. *)
Definition http_status {A} (r : result A) : Z :=
  match r with
  | Ok _ => 200
  | Raise (HTTPException s _) => s
  | Raise _ => 500
  end.

Definition result_bind {A B} (r : result A) (k : A → result B) : result B :=
  match r with
  | Ok a => k a
  | Raise e => Raise e
  end.

(** A list comprehension whose element expression may raise. *)
Fixpoint result_map {A B} (f : A → result B) (xs : list A) : result (list B) :=
  match xs with
  | [] => Ok []
  | x :: xs' =>
      result_bind (f x) (λ y,
      result_bind (result_map f xs') (λ ys, Ok (y :: ys)))
  end.

(** ** Python's [int(...)] on document values *)

Definition py_isdigit (c : ascii) : bool :=
  (let n := N_of_ascii c in (48 <=? n) && (n <=? 57))%N.

Fixpoint lstrip (s : list ascii) : list ascii :=
  match s with
  | c :: s' => if py_isspace c then lstrip s' else s
  | [] => []
  end.

Definition strip (s : list ascii) : list ascii :=
  reverse (lstrip (reverse (lstrip s))).

(** Decimal digits, single underscores allowed between two digits. *)
Fixpoint int_digits (acc : Z) (after_digit : bool) (s : list ascii)
  : option Z :=
  match s with
  | [] => if after_digit then Some acc else None
  | c :: s' =>
      if py_isdigit c
      then int_digits (10 * acc + (Z.of_N (N_of_ascii c) - 48)) true s'
      else if bool_decide (c = "_"%char) && after_digit
      then match s' with
           | [] => None
           | _ => int_digits acc false s'
           end
      else None
  end.

Definition int_of_str (s : string) : option Z :=
  match strip (list_ascii_of_string s) with
  | "+"%char :: t => int_digits 0 false t
  | "-"%char :: t => Z.opp <$> int_digits 0 false t
  | t => int_digits 0 false t
  end.

(** [int(v)]: identity on an [int], parses a [str] (base 10), [TypeError]
    on [None] and on an [ObjectId].  An ASCII text is parsed as Python
    parses it; a text with a character beyond ASCII is taken to raise
    [ValueError] (Python also reads the spaces and decimal digits of
    other scripts), and the interpreter's cap on the number of digits is
    not modelled.  The service itself only ever stores integers in the
    count fields. *)
Definition py_int (v : value) : result Z :=
  match v with
  | VInt z => Ok z
  | VStr s =>
      match int_of_str s with
      | Some z => Ok z
      | None => Raise ValueError
      end
  | VNone | VOid _ => Raise TypeError
  end.

(** [str(v)] as used on [doc.get("_id")]. *)
Definition py_str (v : value) : string :=
  match v with
  | VNone => "None"
  | VStr s => s
  | VInt z => pretty z
  | VOid o => ObjectId_str o
  end.

(** ** Request and response models (pydantic) *)

Module PromptCreate.
Record t := mk {
  option_a : string;
  option_b : string;
  category : string;
  created_by : option string
}.

(** [Field(..., min_length=3, max_length=140)], counted in characters. *)
Definition length_ok (s : string) : bool :=
  (3 <=? py_len s)%nat && (py_len s <=? 140)%nat.

(** Validation of a request body: [option_a] and [option_b] are required
    and length-checked, [category] defaults to ["general"] when omitted
    and [created_by] to [None].  [None] stands for the 422 answer. *)
Definition validate (a b : string) (cat : option string)
    (by_ : option string) : option t :=
  if length_ok a && length_ok b
  then Some (mk a b (default "general" cat) by_)
  else None.

(** [body.model_dump()]. *)
Definition model_dump (body : t) : doc :=
  {[ "option_a" := VStr (option_a body);
     "option_b" := VStr (option_b body);
     "category" := VStr (category body);
     "created_by" := from_option VStr VNone (created_by body) ]}.
End PromptCreate.

Module PromptResponse.
Record t := mk {
  id : string;
  option_a : string;
  option_b : string;
  category : string;
  created_by : option string;
  a_count : Z;
  b_count : Z
}.

(** A [str] field accepts a string only. *)
Definition str_field (v : option value) : option string :=
  match v with
  | Some (VStr s) => Some s
  | _ => None
  end.

(** An [Optional[str]] field accepts [None] or a string. *)
Definition optional_str_field (v : option value) : option (option string) :=
  match v with
  | None | Some VNone => Some None
  | Some (VStr s) => Some (Some s)
  | Some _ => None
  end.
End PromptResponse.

Module VoteRequest.
Record t := mk {
  prompt_id : string;
  option : string
}.

(** [pattern="^(a|b)$"]. *)
Definition pattern_ok (o : string) : bool :=
  String.eqb o "a" || String.eqb o "b".

Definition validate (pid o : string) : Datatypes.option t :=
  if pattern_ok o then Some (mk pid o) else None.
End VoteRequest.

(** ** Starter prompts and serialisation *)

Definition STARTER_PROMPTS : list (string * string) :=
  [ ("be able to fly for a day", "turn invisible for a day");
    ("eat pancakes for dinner", "eat pizza for breakfast");
    ("have a pet dinosaur", "have a pet dragon");
    ("swim with dolphins", "camp under the stars");
    ("build a giant pillow fort", "have a massive water balloon fight");
    ("never do homework again", "never do chores again") ].

(** [doc.get(k, dflt)]. *)
Definition dict_get (d : doc) (k : string) (dflt : value) : value :=
  default dflt (d !! k).

(** [_serialize(doc)].  The arguments are evaluated left to right, so the
    two [int(...)] conversions raise before the model is validated. *)
Definition _serialize (d : doc) : result PromptResponse.t :=
  let id := py_str (dict_get d "_id" VNone) in
  let option_a := d !! "option_a" in
  let option_b := d !! "option_b" in
  let category := Some (dict_get d "category" (VStr "general")) in
  let created_by := d !! "created_by" in
  result_bind (py_int (dict_get d "a_count" (VInt 0))) (λ a_count,
  result_bind (py_int (dict_get d "b_count" (VInt 0))) (λ b_count,
  match PromptResponse.str_field option_a,
        PromptResponse.str_field option_b,
        PromptResponse.str_field category,
        PromptResponse.optional_str_field created_by with
  | Some oa, Some ob, Some cat, Some cb =>
      Ok (PromptResponse.mk id oa ob cat cb a_count b_count)
  | _, _, _, _ => Raise ValidationError
  end)).

(** ** The world: the storage handle and the identifier generator *)

Record Database := mkDatabase {
  prompt : list doc   (* the "prompt" collection, in natural order *)
}.

Record World := mkWorld {
  db : option Database;   (* the module-level handle, [None] if unconfigured *)
  oid_count : nat         (* identifiers generated so far *)
}.

(** Handlers run in a state-and-exception monad over the world. *)
Definition M (A : Type) : Type := World → result A * World.

Definition ret {A} (a : A) : M A := λ w, (Ok a, w).
Definition raise {A} (e : exn) : M A := λ w, (Raise e, w).
Definition bind {A B} (m : M A) (k : A → M B) : M B := λ w,
  match m w with
  | (Ok a, w') => k a w'
  | (Raise e, w') => (Raise e, w')
  end.
Definition lift {A} (r : result A) : M A := λ w, (r, w).

Notation "'let*' x ':=' m 'in' k" := (bind m (λ x, k))
  (at level 10, x pattern, m at level 100, k at level 200).

(** A [for] loop whose body may raise. *)
Fixpoint for_each {A} (xs : list A) (body : A → M unit) : M unit :=
  match xs with
  | [] => ret tt
  | x :: xs' => let* _ := body x in for_each xs' body
  end.

(** [db is None]. *)
Definition db_is_None : M bool := λ w, (Ok (bool_decide (db w = None)), w).

(** [db["prompt"]]; subscripting [None] is a [TypeError]. *)
Definition collection : M (list doc) := λ w,
  match db w with
  | Some D => (Ok (prompt D), w)
  | None => (Raise TypeError, w)
  end.

Definition set_collection (c : list doc) : M unit := λ w,
  match db w with
  | Some D => (Ok tt, mkWorld (Some (mkDatabase c)) (oid_count w))
  | None => (Raise TypeError, w)
  end.

(** *** Sort order of the store *)

(** BSON comparison order restricted to [value]: null (and a missing
    field) < numbers < strings < ObjectId; numbers by value, strings and
    identifiers bytewise. *)
Definition bson_key (v : option value) : N * (Z * list N) :=
  match v with
  | None | Some VNone => (1%N, (0, []))
  | Some (VInt z) => (2%N, (z, []))
  | Some (VStr s) => (3%N, (0, N_of_ascii <$> list_ascii_of_string s))
  | Some (VOid o) => (4%N, (0, Byte.to_N <$> binary o))
  end.

(** The key of [sort([("a_count", -1), ("b_count", -1)])]. *)
Definition sort_key (d : doc) : (N * (Z * list N)) * (N * (Z * list N)) :=
  (bson_key (d !! "a_count"), bson_key (d !! "b_count")).

(** Both keys descending: [d1] may stand before [d2] when its key is not
    smaller. *)
Definition sorts_before (d1 d2 : doc) : Prop :=
  ¬ lexico (sort_key d1) (sort_key d2).

Global Instance sorts_before_dec : RelDecision sorts_before.
Proof. intros d1 d2. unfold sorts_before. apply _. Defined.

(** *** Driver operations on [db["prompt"]] *)

Section driver.
(** The k-th identifier generated by [ObjectId()] in this process. *)
Variable new_ObjectId : nat → ObjectId.

Definition ObjectId_new : M ObjectId := λ w,
  (Ok (new_ObjectId (oid_count w)), mkWorld (db w) (S (oid_count w))).

(** [count_documents({})]. *)
Definition count_documents : M nat :=
  let* c := collection in ret (length c).

(** [insert_one(doc)]: a document without ["_id"] is given a generated
    one (the caller's dict is updated too, hence the returned document);
    the store refuses an ["_id"] that is already present. *)
Definition insert_one (d : doc) : M (doc * value) :=
  let* _ := collection in
  let* d := match d !! "_id" with
            | Some _ => ret d
            | None => let* o := ObjectId_new in ret (<["_id" := VOid o]> d)
            end in
  let inserted_id := dict_get d "_id" VNone in
  let* c := collection in
  if bool_decide (Exists (λ e : doc, e !! "_id" = Some inserted_id) c)
  then raise DuplicateKeyError
  else let* _ := set_collection (c ++ [d]) in ret (d, inserted_id).

(** [aggregate([{"$sample": {"size": 1}}])], [rnd] selecting the
    sampled document. *)
Definition aggregate_sample_1 (rnd : nat) : M (list doc) :=
  let* c := collection in
  ret (match c with
       | [] => []
       | _ => take 1 (drop (rnd mod length c) c)
       end).

(** The filter [{"_id": oid}], [oid] given by the bytes it keeps: a
    document matches when its ["_id"] is the identifier of these bytes.
    An identifier of fewer than 12 bytes matches no document. *)
Definition id_matches (oid : list byte) (e : doc) : bool :=
  match e !! "_id" with
  | Some (VOid o) => bool_decide (binary o = oid)
  | _ => false
  end.

(** [find_one_and_update({"_id": oid}, {"$inc": {field: 1}},
    return_document=True)]: the first document with that ["_id"] has
    [field] incremented in place ([$inc] creates a missing field and
    fails on a non-numeric one) and is returned as updated; [None] when
    no document matches. *)
Definition find_one_and_update_inc (oid : list byte) (field : string)
  : M (option doc) :=
  let* c := collection in
  match list_find (λ e : doc, id_matches oid e = true) c with
  | None => ret None
  | Some (i, d) =>
      match d !! field with
      | None =>
          let d' := <[field := VInt 1]> d in
          let* _ := set_collection (<[i := d']> c) in ret (Some d')
      | Some (VInt x) =>
          let d' := <[field := VInt (x + 1)]> d in
          let* _ := set_collection (<[i := d']> c) in ret (Some d')
      | Some _ => raise OperationFailure
      end
  end.

(** [find({}).sort([("a_count", -1), ("b_count", -1)]).limit(limit)]:
    a limit of 0 means no limit, a negative limit is applied as its
    absolute value.  The store leaves the relative order of documents
    with equal keys unspecified: the stable merge used here is one of the
    orders it may answer with, and what is proved of a ranking is stated
    so that it holds of every such order.  With a negative limit the
    store answers in a single batch of at most |limit| documents; here
    it is |limit| of them when that many are stored. *)
Definition find_sort_limit (limit : Z) : M (list doc) :=
  let* c := collection in
  let sorted := merge_sort sorts_before c in
  ret (if limit =? 0 then sorted else take (Z.abs_nat limit) sorted).

(** ** The handlers of [main.py] *)

Definition seed_doc (a b : string) : doc :=
  {[ "option_a" := VStr a;
     "option_b" := VStr b;
     "category" := VStr "general";
     "created_by" := VStr "seed";
     "a_count" := VInt 0;
     "b_count" := VInt 0 ]}.

Definition _ensure_seeded : M unit :=
  let* none := db_is_None in
  if none : bool
  then raise (HTTPException 500 "Database not configured")
  else
    let* count := count_documents in
    if Nat.eqb count 0
    then for_each STARTER_PROMPTS
           (λ '(a, b), let* _ := insert_one (seed_doc a b) in ret tt)
    else ret tt.

Definition get_random_prompt (rnd : nat) : M PromptResponse.t :=
  let* _ := _ensure_seeded in
  let* docs := aggregate_sample_1 rnd in
  match docs with
  | [] => raise (HTTPException 404 "No prompts available")
  | d :: _ => lift (_serialize d)
  end.

Definition create_prompt (body : PromptCreate.t) : M PromptResponse.t :=
  let* none := db_is_None in
  if none : bool
  then raise (HTTPException 500 "Database not configured")
  else
    let doc := PromptCreate.model_dump body in
    let doc := <["b_count" := VInt 0]> (<["a_count" := VInt 0]> doc) in
    let* (doc, inserted_id) := insert_one doc in
    let doc := <["_id" := inserted_id]> doc in
    lift (_serialize doc).

Definition vote (body : VoteRequest.t) : M PromptResponse.t :=
  let* none := db_is_None in
  if none : bool
  then raise (HTTPException 500 "Database not configured")
  else
    let* oid := match ObjectId_init (VoteRequest.prompt_id body) with
                | Some bs => ret bs
                | None => raise (HTTPException 400 "Invalid prompt_id")
                end in
    let field := if String.eqb (VoteRequest.option body) "a"
                 then "a_count" else "b_count" in
    let* updated := find_one_and_update_inc oid field in
    match updated with
    | None => raise (HTTPException 404 "Prompt not found")
    | Some u =>
        if bool_decide (u = ∅)
        then raise (HTTPException 404 "Prompt not found")
        else lift (_serialize u)
    end.

Definition top_prompts (limit : Z) : M (list PromptResponse.t) :=
  let* none := db_is_None in
  if none : bool
  then raise (HTTPException 500 "Database not configured")
  else
    let* docs := find_sort_limit limit in
    lift (result_map _serialize docs).

(** The route [/api/prompts/top?limit=N]: the query parameter is
    optional, [limit: int = 10]. *)
Definition get_api_prompts_top (limit : option Z)
  : M (list PromptResponse.t) :=
  top_prompts (default 10 limit).

(** *** Requests and runs of the service *)

Inductive request :=
| GetRandomPrompt (rnd : nat)
| CreatePrompt (body : PromptCreate.t)
| Vote (body : VoteRequest.t)
| TopPrompts (limit : Z).

(** The world after a request has been handled, whatever the answer. *)
Definition handle (rq : request) (w : World) : World :=
  match rq with
  | GetRandomPrompt rnd => (get_random_prompt rnd w).2
  | CreatePrompt body => (create_prompt body w).2
  | Vote body => (vote body w).2
  | TopPrompts limit => (top_prompts limit w).2
  end.

Definition run (rqs : list request) (w : World) : World :=
  foldl (λ w rq, handle rq w) w rqs.

(** The collection right after seeding, when the identifiers generated
    from [n] on are used. *)
Definition seeded_from (n : nat) : list doc :=
  imap (λ i '(a, b), <["_id" := VOid (new_ObjectId (n + i))]> (seed_doc a b))
       STARTER_PROMPTS.
End driver.

(** ** Well-formed stored prompts *)

(** A stored prompt as this service writes it: an [ObjectId] under
    ["_id"], the two options and the category as strings, the creator a
    string or [None], both counts integers. *)
Definition prompt_doc (d : doc) : bool :=
  match d !! "_id", d !! "option_a", d !! "option_b", d !! "category",
        d !! "created_by", d !! "a_count", d !! "b_count" with
  | Some (VOid _), Some (VStr _), Some (VStr _), Some (VStr _),
    Some (VNone | VStr _), Some (VInt _), Some (VInt _) => true
  | _, _, _, _, _, _, _ => false
  end.

(** The collection holds well-formed prompts with pairwise distinct
    identifiers. *)
Definition store_wf (c : list doc) : Prop :=
  Forall (λ d, prompt_doc d = true) c ∧ NoDup ((λ d : doc, d !! "_id") <$> c).

Global Instance store_wf_dec c : Decision (store_wf c).
Proof. unfold store_wf. apply _. Defined.

(** The contents of [db["prompt"]], empty while storage is unconfigured. *)
Definition prompts (w : World) : list doc :=
  match db w with
  | Some D => prompt D
  | None => []
  end.

(** The count a stored document carries in [field]; a missing field counts
    as 0, as [$inc] and [_serialize] both take it. *)
Definition count_of (d : doc) (field : string) : option Z :=
  match d !! field with
  | None => Some 0
  | Some (VInt x) => Some x
  | Some _ => None
  end.

(** The document [create_prompt] hands to the store and serialises. *)
Definition created_doc (o : ObjectId) (body : PromptCreate.t) : doc :=
  <["_id" := VOid o]>
    (<["b_count" := VInt 0]>
       (<["a_count" := VInt 0]> (PromptCreate.model_dump body))).

(** The fields of a stored prompt that no handler writes after creation. *)
Definition static_fields (d : doc) :=
  (d !! "_id", d !! "option_a", d !! "option_b", d !! "category",
   d !! "created_by").

(** [c'] is a later state of the collection [c]: well-formedness carries
    over, and every prompt of [c] is still there with the same identifier,
    options, category and creator. *)
Definition extends (c c' : list doc) : Prop :=
  (store_wf c → store_wf c')
  ∧ ∀ d, d ∈ c → ∃ d', d' ∈ c' ∧ static_fields d' = static_fields d.

(** ** The diagnostic route [/test] *)

Module Diagnostics.
(** What [test_database] uses of the handle [db]: the attribute [name],
    which [hasattr] may find missing, and [list_collection_names()], which
    returns the names or raises an exception [e] (kept as [str(e)]). *)
Record handle := mkHandle {
  name : option string;
  list_collection_names : string + list string
}.

(** The response dict; its keys are fixed, so it is a record. *)
Record response := mkResponse {
  backend : string;
  database : string;
  database_url : option string;
  database_name : option string;
  connection_status : string;
  collections : list string
}.

(** Truthiness of [os.getenv("DATABASE_URL")]: unset and empty are both
    false. *)
Definition env_set (v : option string) : bool :=
  match v with
  | None | Some EmptyString => false
  | Some _ => true
  end.

(** [test_database()].  The response is updated key by key inside the
    [try]; an exception from [list_collection_names] leaves the keys
    already written and overwrites ["database"] only. *)
Definition test_database (db : option handle) (DATABASE_URL : option string)
  : response :=
  match db with
  | Some h =>
      let url := Some (if env_set DATABASE_URL then "✅ Set" else "❌ Not Set") in
      let nm := Some (default "Unknown" (name h)) in
      match list_collection_names h with
      | inr cs =>
          mkResponse "✅ Running" "✅ Available" url nm "Connected" (take 10 cs)
      | inl e =>
          mkResponse "✅ Running" ("❌ Error: " +:+ py_prefix 100 e)
                     url nm "Connected" []
      end
  | None =>
      mkResponse "✅ Running" "⚠️ Available but not initialized"
                 None None "Not Connected" []
  end.
End Diagnostics.

(** ** Votes in sequence *)

(** The requests of a series of votes on one prompt. *)
Definition votes_on (pid : string) (options : list string) : list request :=
  (λ o, Vote (VoteRequest.mk pid o)) <$> options.

(** How many of the options are [o]. *)
Definition count_option (o : string) (options : list string) : Z :=
  Z.of_nat (length (filter (λ o', o' = o) options)).

(** ** Counts of a ranking *)

(** The pair of counts a ranking is ordered by, read off a record and off
    the sort key of a document. *)
Definition response_counts (r : PromptResponse.t) : Z * Z :=
  (PromptResponse.a_count r, PromptResponse.b_count r).

Definition key_counts (k : (N * (Z * list N)) * (N * (Z * list N))) : Z * Z :=
  (k.1.2.1, k.2.2.1).

(** Descending order on sort keys. *)
Definition key_ge (k1 k2 : (N * (Z * list N)) * (N * (Z * list N))) : Prop :=
  ¬ lexico k1 k2.

(** ** Growth of the collection *)

(** An integer count of [d] under [field] is an integer at least as large
    in [d']. *)
Definition count_le (d d' : doc) (field : string) : Prop :=
  ∀ x, d !! field = Some (VInt x) →
       ∃ x', d' !! field = Some (VInt x') ∧ x ≤ x'.

(** [c'] keeps every document of [c] at its position, with the fields
    that are never rewritten unchanged and with counts that are not
    smaller. *)
Definition grows (c c' : list doc) : Prop :=
  ∀ i d, c !! i = Some d →
    ∃ d', c' !! i = Some d' ∧ static_fields d' = static_fields d
          ∧ count_le d d' "a_count" ∧ count_le d d' "b_count".

(** ** Sample data *)

(** An exception text of 60 characters, 120 bytes in UTF-8. *)
Definition accented_text : string :=
  "éééééééééééééééééééééééééééééééééééééééééééééééééééééééééééé".

Definition byte_of (n : N) : byte := default x00 (Byte.of_N (n mod 256)%N).

(** A generator in the shape of bson's: a fixed prefix followed by a
    3-byte big-endian counter. *)
Definition counter_ObjectId (k : nat) : ObjectId :=
  let n := N.of_nat k in
  mkObjectId [x65; x4f; x1a; x2b; x00; x11; x22; x33; x44;
              byte_of (n / 65536); byte_of (n / 256); byte_of n] eq_refl.

Definition empty_world : World := mkWorld (Some (mkDatabase [])) 0.

Definition unconfigured_world : World := mkWorld None 0.

(** A store of three prompts with some votes, and the world around it. *)
Definition sample_prompt (k : nat) (a b : Z) : doc :=
  <["b_count" := VInt b]>
    (<["a_count" := VInt a]>
       (<["_id" := VOid (counter_ObjectId k)]> (seed_doc "tea" "coffee"))).

Definition sample_database : Database :=
  mkDatabase [sample_prompt 0 3 5; sample_prompt 1 4 1; sample_prompt 2 4 2].

Definition sample_world : World := mkWorld (Some sample_database) 3.

(** The serialisation of [sample_prompt k a b]. *)
Definition sample_response (k : nat) (a b : Z) : PromptResponse.t :=
  PromptResponse.mk (ObjectId_str (counter_ObjectId k)) "tea" "coffee"
                    "general" (Some "seed") a b.

(** An identifier that [sample_database] does not hold. *)
Definition absent_ObjectId : ObjectId :=
  mkObjectId [x01; x23; x45; x67; x89; xab; xcd; xef; x01; x23; x45; x67]
             eq_refl.

(** [sample_world] after one more vote for option "b" of its second
    prompt. *)
Definition sample_world_voted : World :=
  mkWorld (Some (mkDatabase
    [sample_prompt 0 3 5; sample_prompt 1 4 2; sample_prompt 2 4 2])) 3.

(** * Properties *)

(** ** Identifiers: text form and parsing *)

Lemma hexlify_length (bs : list byte) :
  String.length (hexlify bs) = (2 * length bs)%nat.
Proof. induction bs as [|b bs IH]; simpl; [done | lia]. Qed.

Lemma fromhex_hexlify (bs : list byte) : fromhex (hexlify bs) = Some bs.
Proof.
  induction bs as [|b bs IH]; [done|].
  cbn [hexlify fromhex]. rewrite IH. by destruct b.
Qed.

Lemma ObjectId_ext (a b : ObjectId) : binary a = binary b → a = b.
Proof.
  destruct a as [x Hx], b as [y Hy]; simpl; intros ->.
  f_equal. apply (proof_irrel _).
Qed.

Lemma ObjectId_of_bytes_binary (o : ObjectId) :
  ObjectId_of_bytes (binary o) = Some o.
Proof.
  unfold ObjectId_of_bytes. destruct (decide _) as [H|H].
  - f_equal. by apply ObjectId_ext.
  - destruct H. apply binary_len.
Qed.

Lemma ObjectId_of_bytes_Some (bs : list byte) (o : ObjectId) :
  ObjectId_of_bytes bs = Some o → binary o = bs.
Proof.
  unfold ObjectId_of_bytes. destruct (decide _); [|done]. by intros [= <-].
Qed.

Lemma py_len_hexlify (bs : list byte) :
  py_len (hexlify bs) = (2 * length bs)%nat.
Proof.
  induction bs as [|b bs IH]; [done|].
  cbn [hexlify py_len length]. rewrite IH. destruct b; simpl; lia.
Qed.

(** The constructor accepts the text form of an identifier and keeps the
    identifier's bytes. *)
Lemma ObjectId_init_str (o : ObjectId) :
  ObjectId_init (ObjectId_str o) = Some (binary o).
Proof.
  unfold ObjectId_init, ObjectId_str.
  rewrite py_len_hexlify, fromhex_hexlify.
  pose proof (binary_len o) as H. apply Nat.eqb_eq in H. by rewrite H.
Qed.

Lemma ObjectId_parse_init (s : string) (o : ObjectId) :
  ObjectId_parse s = Some o ↔ ObjectId_init s = Some (binary o).
Proof.
  unfold ObjectId_parse. split.
  - destruct (ObjectId_init s) as [bs|]; [|done].
    by intros ->%ObjectId_of_bytes_Some.
  - intros ->. apply ObjectId_of_bytes_binary.
Qed.

(** Parsing the text form of an identifier gives the identifier back. *)
Lemma ObjectId_parse_str (o : ObjectId) :
  ObjectId_parse (ObjectId_str o) = Some o.
Proof. apply ObjectId_parse_init, ObjectId_init_str. Qed.

Lemma id_matches_inv (bs : list byte) (e : doc) :
  id_matches bs e = true →
  ∃ o, e !! "_id" = Some (VOid o) ∧ binary o = bs.
Proof.
  unfold id_matches. destruct (e !! "_id") as [[| | |o]|]; try done.
  intros H%bool_decide_eq_true. by exists o.
Qed.

Lemma id_matches_binary (o : ObjectId) (e : doc) :
  id_matches (binary o) e = true ↔ e !! "_id" = Some (VOid o).
Proof.
  split.
  - intros (o' & Ho' & Hb)%id_matches_inv.
    by rewrite Ho', (ObjectId_ext o' o Hb).
  - unfold id_matches. intros ->. by apply bool_decide_eq_true.
Qed.


Lemma ObjectId_str_inj (a b : ObjectId) :
  ObjectId_str a = ObjectId_str b → a = b.
Proof.
  intros E. apply (inj Some).
  by rewrite <- (ObjectId_parse_str a), E, ObjectId_parse_str.
Qed.

(** ** The sort order *)

Global Instance sorts_before_total : Total sorts_before.
Proof.
  intros x y. unfold sorts_before.
  destruct (trichotomyT lexico (sort_key x) (sort_key y)) as [[H|H]|H].
  - right. intros H'. apply (irreflexivity lexico (sort_key x)).
    by transitivity (sort_key y).
  - left. rewrite H. apply (irreflexivity lexico).
  - left. intros H'. apply (irreflexivity lexico (sort_key x)).
    by transitivity (sort_key y).
Qed.

Global Instance sorts_before_trans : Transitive sorts_before.
Proof.
  intros x y z. unfold sorts_before. intros Hxy Hyz Hxz.
  destruct (trichotomyT lexico (sort_key y) (sort_key z)) as [[H|H]|H];
    [done | rewrite <- H in Hxz; done |].
  destruct (trichotomyT lexico (sort_key x) (sort_key y)) as [[H'|H']|H'];
    [done | rewrite H' in Hxz |].
  - apply (irreflexivity lexico (sort_key y)). by transitivity (sort_key z).
  - apply (irreflexivity lexico (sort_key y)).
    transitivity (sort_key z); [|done]. by transitivity (sort_key x).
Qed.

Lemma sorts_before_counts (d1 d2 : doc) (a1 b1 a2 b2 : Z) :
  d1 !! "a_count" = Some (VInt a1) → d1 !! "b_count" = Some (VInt b1) →
  d2 !! "a_count" = Some (VInt a2) → d2 !! "b_count" = Some (VInt b2) →
  sorts_before d1 d2 → a2 ≤ a1 ∧ (a1 = a2 → b2 ≤ b1).
Proof.
  unfold sorts_before, sort_key. intros -> -> -> -> H. simpl in H.
  split.
  - destruct (decide (a2 ≤ a1)) as [|N]; [done|]. destruct H.
    left. right. split; [done|]. left. unfold lexico, Z_lexico. simpl. lia.
  - intros ->. destruct (decide (b2 ≤ b1)) as [|N]; [done|]. destruct H.
    right. split; [done|]. right. split; [done|].
    left. unfold lexico, Z_lexico. simpl. lia.
Qed.

(** ** Serialisation of well-formed prompts *)

Lemma prompt_doc_inv (d : doc) :
  prompt_doc d = true →
  ∃ o oa ob cat cb a b,
    d !! "_id" = Some (VOid o) ∧ d !! "option_a" = Some (VStr oa) ∧
    d !! "option_b" = Some (VStr ob) ∧ d !! "category" = Some (VStr cat) ∧
    d !! "created_by" = Some (from_option VStr VNone cb) ∧
    d !! "a_count" = Some (VInt a) ∧ d !! "b_count" = Some (VInt b).
Proof.
  unfold prompt_doc. intros H.
  destruct (d !! "_id") as [[| | |o]|]; try done.
  destruct (d !! "option_a") as [[|oa| |]|]; try done.
  destruct (d !! "option_b") as [[|ob| |]|]; try done.
  destruct (d !! "category") as [[|cat| |]|]; try done.
  destruct (d !! "a_count") as [[| |a|]|];
    [by repeat case_match..| |by repeat case_match|by repeat case_match].
  destruct (d !! "b_count") as [[| |b|]|];
    [by repeat case_match..| |by repeat case_match|by repeat case_match].
  destruct (d !! "created_by") as [[|cb| |]|]; try done.
  - by exists o, oa, ob, cat, None, a, b.
  - by exists o, oa, ob, cat, (Some cb), a, b.
Qed.

Lemma serialize_fields (d : doc) o oa ob cat cb a b :
  d !! "_id" = Some (VOid o) → d !! "option_a" = Some (VStr oa) →
  d !! "option_b" = Some (VStr ob) → d !! "category" = Some (VStr cat) →
  d !! "created_by" = Some (from_option VStr VNone cb) →
  d !! "a_count" = Some (VInt a) → d !! "b_count" = Some (VInt b) →
  _serialize d = Ok (PromptResponse.mk (ObjectId_str o) oa ob cat cb a b).
Proof.
  intros H1 H2 H3 H4 H5 H6 H7. unfold _serialize, dict_get.
  rewrite H1, H2, H3, H4, H5, H6, H7. simpl. by destruct cb.
Qed.

(** [_serialize] raises from [int(...)] or from model validation only. *)
Lemma serialize_raises (d : doc) (e : exn) :
  _serialize d = Raise e →
  e = TypeError ∨ e = ValueError ∨ e = ValidationError.
Proof.
  unfold _serialize, result_bind, py_int.
  repeat case_match; intros; simplify_eq; auto.
Qed.

Lemma serialize_prompt_doc (d : doc) :
  prompt_doc d = true → ∃ r, _serialize d = Ok r.
Proof.
  intros (o & oa & ob & cat & cb & a & b & H)%prompt_doc_inv.
  destruct H as (?&?&?&?&?&?&?). eexists. by apply serialize_fields.
Qed.

(** Writing an integer into a count field keeps a prompt well formed. *)
Lemma prompt_doc_set_count (d : doc) (field : string) (x : Z) :
  prompt_doc d = true → field = "a_count" ∨ field = "b_count" →
  prompt_doc (<[field := VInt x]> d) = true.
Proof.
  intros (o & oa & ob & cat & cb & a & b & H)%prompt_doc_inv Hf.
  destruct H as (H1&H2&H3&H4&H5&H6&H7). unfold prompt_doc.
  destruct Hf as [-> | ->]; simplify_map_eq; by destruct cb.
Qed.

(** ** The storage operations *)

Lemma collection_Some (w : World) (D : Database) :
  db w = Some D → collection w = (Ok (prompt D), w).
Proof. unfold collection. by intros ->. Qed.

Lemma db_is_None_Some (w : World) (D : Database) :
  db w = Some D → db_is_None w = (Ok false, w).
Proof. unfold db_is_None. by intros ->. Qed.

Lemma db_is_None_None (w : World) :
  db w = None → db_is_None w = (Ok true, w).
Proof. unfold db_is_None. by intros ->. Qed.

(** What [find_one_and_update] with [$inc] does, by cases on its answer. *)
Lemma find_one_and_update_inc_inv bs field w r w' :
  find_one_and_update_inc bs field w = (r, w') →
  match r with
  | Ok None =>
      w' = w ∧ Forall (λ e : doc, id_matches bs e ≠ true) (prompts w)
  | Ok (Some d') =>
      ∃ D i d x,
        db w = Some D ∧ prompt D !! i = Some d ∧
        (∃ oid, d !! "_id" = Some (VOid oid) ∧ binary oid = bs) ∧
        (∀ j e, prompt D !! j = Some e → (j < i)%nat →
                id_matches bs e ≠ true) ∧
        count_of d field = Some x ∧ d' = <[field := VInt (x + 1)]> d ∧
        w' = mkWorld (Some (mkDatabase (<[i := d']> (prompt D)))) (oid_count w)
  | Raise e => w' = w ∧ (e = OperationFailure ∨ e = TypeError)
  end.
Proof.
  unfold find_one_and_update_inc, bind, collection, prompts.
  destruct (db w) as [D|] eqn:HD; [|intros [= <- <-]; auto].
  destruct (list_find _ (prompt D)) as [[i d]|] eqn:Hfind.
  - apply list_find_Some in Hfind as (Hi & Hid%id_matches_inv & Hfirst).
    unfold count_of, set_collection, ret, raise.
    destruct (d !! field) as [[| |x|]|] eqn:Hf; cbv beta; rewrite ?HD;
      intros [= <- <-]; auto.
    + exists D, i, d, x. by rewrite Hf.
    + exists D, i, d, 0. by rewrite Hf.
  - apply list_find_None in Hfind. by intros [= <- <-].
Qed.

(** In a well-formed store the document found is the one stored under
    the identifier. *)
Lemma find_one_and_update_inc_wf oid field w D d x :
  db w = Some D → store_wf (prompt D) → d ∈ prompt D →
  d !! "_id" = Some (VOid oid) → d !! field = Some (VInt x) →
  ∃ i, prompt D !! i = Some d ∧
    find_one_and_update_inc (binary oid) field w =
      (Ok (Some (<[field := VInt (x + 1)]> d)),
       mkWorld (Some (mkDatabase
         (<[i := <[field := VInt (x + 1)]> d]> (prompt D)))) (oid_count w)).
Proof.
  intros HD [_ Hnd] [i Hi]%list_elem_of_lookup Hid Hf. exists i. split; [done|].
  unfold find_one_and_update_inc, bind, collection. rewrite HD.
  destruct (list_find _ (prompt D)) as [[j e]|] eqn:Hfind.
  - apply list_find_Some in Hfind as (Hj & Hjd%id_matches_binary & _).
    assert (j = i) as ->.
    { eapply NoDup_lookup; [exact Hnd| |];
        rewrite list_lookup_fmap; [rewrite Hj | rewrite Hi]; simpl;
        by rewrite ?Hjd, ?Hid. }
    assert (e = d) as -> by congruence.
    rewrite Hf. unfold set_collection, ret. cbv beta. by rewrite HD.
  - apply list_find_None in Hfind.
    destruct (Forall_lookup_1 _ _ _ _ Hfind Hi). by apply id_matches_binary.
Qed.

(** ** Voting *)

(** The count field a vote selects. *)
Lemma vote_field_cases (o : string) :
  VoteRequest.pattern_ok o = true →
  o = "a" ∧ (if String.eqb o "a" then "a_count" else "b_count") = "a_count"
  ∨ o = "b" ∧ (if String.eqb o "a" then "a_count" else "b_count") = "b_count".
Proof.
  unfold VoteRequest.pattern_ok. intros H.
  destruct (String.eqb o "a") eqn:Ea.
  - left. by apply String.eqb_eq in Ea.
  - right. simpl in H. by apply String.eqb_eq in H.
Qed.

(** The handler, read off as a decision tree. *)
Lemma vote_unfold (body : VoteRequest.t) (w : World) :
  vote body w =
  match db w with
  | None => (Raise (HTTPException 500 "Database not configured"), w)
  | Some _ =>
      match ObjectId_init (VoteRequest.prompt_id body) with
      | None => (Raise (HTTPException 400 "Invalid prompt_id"), w)
      | Some oid =>
          let field := if String.eqb (VoteRequest.option body) "a"
                       then "a_count" else "b_count" in
          match find_one_and_update_inc oid field w with
          | (Ok None, w') => (Raise (HTTPException 404 "Prompt not found"), w')
          | (Ok (Some u), w') =>
              (if bool_decide (u = ∅)
               then Raise (HTTPException 404 "Prompt not found")
               else _serialize u, w')
          | (Raise e, w') => (Raise e, w')
          end
      end
  end.
Proof.
  unfold vote, bind, db_is_None.
  destruct (db w) as [D|]; simpl; [|done].
  destruct (ObjectId_init _) as [oid|]; simpl; [|done].
  destruct (find_one_and_update_inc _ _ w) as [[[u|]|e] w']; simpl; try done.
  by case_bool_decide.
Qed.

(** C10: with storage unconfigured every vote is answered 500, "Database
    not configured", whatever the request holds (a malformed [prompt_id]
    included) and without touching the world; hence a vote answered 400
    was handled under configured storage and had a malformed identifier,
    one that the identifier constructor rejects. *)
Theorem vote_unconfigured_500 (body : VoteRequest.t) (w : World) :
  db w = None →
  vote body w = (Raise (HTTPException 500 "Database not configured"), w)
  ∧ ∀ body2 w2, http_status (vote body2 w2).1 = 400 →
      db w2 ≠ None ∧ ObjectId_parse (VoteRequest.prompt_id body2) = None
      ∧ ObjectId_init (VoteRequest.prompt_id body2) = None.
Proof.
  intros Hw. split.
  - rewrite vote_unfold. by rewrite Hw.
  - intros body2 w2. rewrite vote_unfold.
    destruct (db w2) as [D|]; [|done].
    unfold ObjectId_parse.
    destruct (ObjectId_init _) as [oid|]; [|done]. cbv zeta.
    intros H. exfalso. revert H.
    destruct (find_one_and_update_inc _ _ w2) as [[[u|]|e] w'] eqn:Hfind;
      simpl; try done.
    + apply find_one_and_update_inc_inv in Hfind
        as (D' & i & d & x & _ & _ & Hid & _ & _ & -> & _).
      rewrite bool_decide_eq_false_2 by apply insert_non_empty.
      destruct (_serialize _) as [r|e] eqn:Hs; simpl; [done|].
      by apply serialize_raises in Hs as [->|[->| ->]].
    + by apply find_one_and_update_inc_inv in Hfind as [_ [->| ->]].
Qed.

(** C2, as stated, fails: a malformed identifier sent while storage is
    unconfigured is answered 500, not 400. *)
Lemma vote_malformed_unconfigured_counterexample :
  ObjectId_init (VoteRequest.prompt_id (VoteRequest.mk "not-an-id" "a")) = None
  ∧ http_status (vote (VoteRequest.mk "not-an-id" "a") unconfigured_world).1
    = 500
  ∧ http_status (vote (VoteRequest.mk "not-an-id" "a") unconfigured_world).1
    ≠ 400.
Proof. by vm_compute. Qed.

(** C2 (amended): under configured storage, every vote request whose
    [prompt_id] does not parse, that is, is rejected by the identifier
    constructor (it is not 24 characters long, or holds something other
    than pairs of hexadecimal digits and the ASCII whitespace that
    [bytes.fromhex] skips), is answered 400, "Invalid prompt_id" (so
    neither 404 nor 500), before any storage call: the world is
    unchanged. *)
Theorem vote_malformed_400 (body : VoteRequest.t) (w : World) :
  db w ≠ None →
  ObjectId_init (VoteRequest.prompt_id body) = None →
  vote body w = (Raise (HTTPException 400 "Invalid prompt_id"), w)
  ∧ http_status (vote body w).1 = 400.
Proof.
  intros Hdb Hparse. rewrite vote_unfold.
  destruct (db w); [|done]. by rewrite Hparse.
Qed.

Lemma vote_malformed_400_witness :
  db empty_world ≠ None
  ∧ ObjectId_init (VoteRequest.prompt_id (VoteRequest.mk "not-an-id" "b"))
    = None
  ∧ vote (VoteRequest.mk "not-an-id" "b") empty_world
    = (Raise (HTTPException 400 "Invalid prompt_id"), empty_world).
Proof.
  split; [done|]. split; [reflexivity|].
  apply (vote_malformed_400 (VoteRequest.mk "not-an-id" "b") empty_world);
    [done | reflexivity].
Defined.

Lemma vote_unconfigured_500_witness :
  db unconfigured_world = None
  ∧ vote (VoteRequest.mk "not-an-id" "a") unconfigured_world
    = (Raise (HTTPException 500 "Database not configured"),
       unconfigured_world).
Proof.
  split; [reflexivity|].
  apply (vote_unconfigured_500 (VoteRequest.mk "not-an-id" "a")
           unconfigured_world).
  reflexivity.
Defined.

(** C7: an accepted vote changes one stored document in one field.  The
    document is the one stored under the parsed identifier, the field is
    [a_count] for option "a" and [b_count] for option "b", and its new
    value is the old count plus 1; every other key of that document
    (["_id"], the options, the category, the creator, the other count)
    and every other document of the collection is as before. *)
Theorem vote_frame (body : VoteRequest.t) (w w' : World)
    (r : PromptResponse.t) :
  VoteRequest.pattern_ok (VoteRequest.option body) = true →
  vote body w = (Ok r, w') →
  ∃ oid field i d d' x,
    ObjectId_parse (VoteRequest.prompt_id body) = Some oid
    ∧ (VoteRequest.option body = "a" ∧ field = "a_count"
       ∨ VoteRequest.option body = "b" ∧ field = "b_count")
    ∧ prompts w !! i = Some d ∧ prompts w' !! i = Some d'
    ∧ d !! "_id" = Some (VOid oid)
    ∧ count_of d field = Some x ∧ d' !! field = Some (VInt (x + 1))
    ∧ (∀ k, k ≠ field → d' !! k = d !! k)
    ∧ (∀ j, j ≠ i → prompts w' !! j = prompts w !! j)
    ∧ length (prompts w') = length (prompts w)
    ∧ oid_count w' = oid_count w.
Proof.
  intros Hopt. rewrite vote_unfold.
  destruct (db w) as [D|] eqn:HD; [|done].
  destruct (ObjectId_init _) as [bs|] eqn:Hinit; [|done]. cbv zeta.
  pose proof (vote_field_cases _ Hopt) as Hfield. revert Hfield.
  generalize (if String.eqb (VoteRequest.option body) "a"
              then "a_count" else "b_count").
  intros field Hfield.
  destruct (find_one_and_update_inc _ _ w) as [[[u|]|e] w1] eqn:Hfind;
    try done.
  apply find_one_and_update_inc_inv in Hfind
    as (D' & i & d & x & HD' & Hi & (oid & Hid & <-) & _ & Hx & -> & ->).
  assert (D' = D) as -> by congruence.
  intros [= _ <-]. unfold prompts. rewrite HD. simpl.
  eexists oid, field, i, d, _, x. split; [by apply ObjectId_parse_init|].
  split; [done|]. split; [done|]. split.
  { apply list_lookup_insert_eq. by eapply lookup_lt_Some. }
  split; [done|]. split; [done|]. split; [by rewrite lookup_insert_eq|].
  split; [intros k Hk; by rewrite lookup_insert_ne|].
  split; [intros j Hj; by rewrite list_lookup_insert_ne|].
  by rewrite length_insert.
Qed.

Lemma vote_frame_witness :
  VoteRequest.pattern_ok "b" = true
  ∧ vote (VoteRequest.mk "654f1a2b0011223344000001" "b") sample_world
    = (Ok (PromptResponse.mk "654f1a2b0011223344000001" "tea" "coffee"
             "general" (Some "seed") 4 2), sample_world_voted)
  ∧ length (prompts sample_world_voted) = length (prompts sample_world)
  ∧ oid_count sample_world_voted = oid_count sample_world.
Proof.
  assert (vote (VoteRequest.mk "654f1a2b0011223344000001" "b") sample_world
          = (Ok (PromptResponse.mk "654f1a2b0011223344000001" "tea" "coffee"
                   "general" (Some "seed") 4 2), sample_world_voted))
    as Hvote by (vm_compute; reflexivity).
  split; [reflexivity|]. split; [exact Hvote|].
  destruct (vote_frame (VoteRequest.mk "654f1a2b0011223344000001" "b")
              sample_world sample_world_voted _ eq_refl Hvote)
    as (oid & field & i & d & d' & x & H).
  destruct H as (_ & _ & _ & _ & _ & _ & _ & _ & _ & Hlen & Hcnt).
  split; [exact Hlen | exact Hcnt].
Defined.

(** C1: in a well-formed store, a validated vote for a stored prompt with
    counts (x, y) is answered with (x+1, y) for option "a" and with
    (x, y+1) for option "b", and the answer is the serialisation of the
    document as it is stored after the increment. *)
Theorem vote_counts (body : VoteRequest.t) (w : World) (D : Database)
    (d : doc) (oid : ObjectId) (x y : Z) :
  db w = Some D → store_wf (prompt D) →
  d ∈ prompt D → d !! "_id" = Some (VOid oid) →
  d !! "a_count" = Some (VInt x) → d !! "b_count" = Some (VInt y) →
  ObjectId_parse (VoteRequest.prompt_id body) = Some oid →
  VoteRequest.pattern_ok (VoteRequest.option body) = true →
  ∃ r w' d',
    vote body w = (Ok r, w')
    ∧ (VoteRequest.option body = "a" →
       PromptResponse.a_count r = x + 1 ∧ PromptResponse.b_count r = y)
    ∧ (VoteRequest.option body = "b" →
       PromptResponse.a_count r = x ∧ PromptResponse.b_count r = y + 1)
    ∧ d' ∈ prompts w' ∧ d' !! "_id" = Some (VOid oid)
    ∧ _serialize d' = Ok r.
Proof.
  intros HD Hwf Hd Hid Ha Hb Hparse Hopt.
  assert (prompt_doc d = true) as Hpd.
  { destruct Hwf as [Hall _]. apply list_elem_of_lookup in Hd as [k Hk].
    exact (Forall_lookup_1 _ _ _ _ Hall Hk). }
  apply prompt_doc_inv in Hpd
    as (o & oa & ob & cat & cb & a & b & H1 & H2 & H3 & H4 & H5 & H6 & H7).
  assert (a = x) as -> by congruence. assert (b = y) as -> by congruence.
  apply ObjectId_parse_init in Hparse.
  rewrite vote_unfold, HD, Hparse. cbv zeta.
  destruct (vote_field_cases _ Hopt) as [[Ho ->]|[Ho ->]].
  - destruct (find_one_and_update_inc_wf oid "a_count" w D d x)
      as (i & Hi & ->); try done.
    rewrite bool_decide_eq_false_2 by apply insert_non_empty.
    eexists _, _, (<["a_count" := VInt (x + 1)]> d).
    erewrite serialize_fields by (simplify_map_eq; done).
    split; [done|]. simpl. split; [done|]. split; [by rewrite Ho|].
    split; [|by simplify_map_eq].
    unfold prompts. simpl. apply list_elem_of_insert. by eapply lookup_lt_Some.
  - destruct (find_one_and_update_inc_wf oid "b_count" w D d y)
      as (i & Hi & ->); try done.
    rewrite bool_decide_eq_false_2 by apply insert_non_empty.
    eexists _, _, (<["b_count" := VInt (y + 1)]> d).
    erewrite serialize_fields by (simplify_map_eq; done).
    split; [done|]. simpl. split; [by rewrite Ho|]. split; [done|].
    split; [|by simplify_map_eq].
    unfold prompts. simpl. apply list_elem_of_insert. by eapply lookup_lt_Some.
Qed.

Lemma vote_counts_witness :
  store_wf (prompt sample_database)
  ∧ sample_prompt 0 3 5 ∈ prompt sample_database
  ∧ ∃ r w',
      vote (VoteRequest.mk "654f1a2b0011223344000000" "a") sample_world
      = (Ok r, w')
      ∧ PromptResponse.a_count r = 4 ∧ PromptResponse.b_count r = 5.
Proof.
  assert (store_wf (prompt sample_database)) as Hwf.
  { apply (bool_decide_unpack _). by vm_compute. }
  assert (sample_prompt 0 3 5 ∈ prompt sample_database) as Hin
    by apply list_elem_of_here.
  split; [exact Hwf|]. split; [exact Hin|].
  destruct (vote_counts (VoteRequest.mk "654f1a2b0011223344000000" "a")
              sample_world sample_database (sample_prompt 0 3 5)
              (counter_ObjectId 0) 3 5 eq_refl Hwf Hin)
    as (r & w' & _ & Hvote & Ha & _);
    [reflexivity.. | vm_compute; reflexivity | reflexivity |].
  exists r, w'. split; [exact Hvote|]. by apply Ha.
Defined.

(** ** Insertion and seeding *)

Section insertion.
Variable new_ObjectId : nat → ObjectId.

(** [insert_one] on a document that has no ["_id"] yet. *)
Lemma insert_one_unfold (d : doc) (w : World) (D : Database) :
  db w = Some D → d !! "_id" = None →
  insert_one new_ObjectId d w =
  let o := new_ObjectId (oid_count w) in
  let d' := <["_id" := VOid o]> d in
  if bool_decide (Exists (λ e : doc, e !! "_id" = Some (VOid o)) (prompt D))
  then (Raise DuplicateKeyError, mkWorld (Some D) (S (oid_count w)))
  else (Ok (d', VOid o),
        mkWorld (Some (mkDatabase (prompt D ++ [d']))) (S (oid_count w))).
Proof.
  destruct w as [dbw n]. simpl. intros -> Hid.
  unfold insert_one, bind, collection, ObjectId_new, ret.
  rewrite Hid. simpl. unfold dict_get. rewrite lookup_insert_eq. simpl.
  case_bool_decide; [done|]. unfold set_collection. by simpl.
Qed.

Lemma insert_one_fresh (d : doc) (w : World) (D : Database) :
  db w = Some D → d !! "_id" = None →
  Forall (λ e : doc, e !! "_id" ≠ Some (VOid (new_ObjectId (oid_count w))))
         (prompt D) →
  insert_one new_ObjectId d w =
  (Ok (<["_id" := VOid (new_ObjectId (oid_count w))]> d,
       VOid (new_ObjectId (oid_count w))),
   mkWorld (Some (mkDatabase
     (prompt D ++ [<["_id" := VOid (new_ObjectId (oid_count w))]> d])))
     (S (oid_count w))).
Proof.
  intros HD Hid Hfresh. rewrite (insert_one_unfold d w D HD Hid). cbv zeta.
  rewrite bool_decide_eq_false_2; [done|].
  intros (e & He & Heid)%Exists_exists.
  apply list_elem_of_lookup in He as [k Hk].
  by apply (Forall_lookup_1 _ _ _ _ Hfresh Hk).
Qed.

Lemma seed_doc_no_id (a b : string) : seed_doc a b !! "_id" = None.
Proof. done. Qed.

(** The seeding loop over any list of pairs: when the identifiers it
    will generate are pairwise distinct and unused, it appends one
    document per pair, in order. *)
Lemma seed_loop (ps : list (string * string)) (c : list doc) (n : nat) :
  NoDup (new_ObjectId <$> seq n (length ps)) →
  Forall (λ e : doc, ∀ i, (i < length ps)%nat →
            e !! "_id" ≠ Some (VOid (new_ObjectId (n + i)))) c →
  for_each ps
    (λ '(a, b), let* _ := insert_one new_ObjectId (seed_doc a b) in ret tt)
    (mkWorld (Some (mkDatabase c)) n)
  = (Ok tt,
     mkWorld (Some (mkDatabase
       (c ++ imap (λ i '(a, b),
               <["_id" := VOid (new_ObjectId (n + i))]> (seed_doc a b)) ps)))
       (n + length ps)).
Proof.
  revert c n. induction ps as [|[a b] ps IH]; intros c n Hnd Hfresh.
  - simpl. unfold ret. by rewrite app_nil_r, Nat.add_0_r.
  - cbn [for_each]. unfold bind at 1. unfold bind at 1.
    erewrite insert_one_fresh; [|reflexivity|apply seed_doc_no_id|]; last first.
    { simpl. eapply Forall_impl; [exact Hfresh|]. intros e He.
      specialize (He 0%nat). rewrite Nat.add_0_r in He. apply He. simpl. lia. }
    unfold ret at 1. cbn [oid_count db prompt].
    simpl in Hnd. apply NoDup_cons in Hnd as [Hhd Hnd].
    rewrite IH; [| done |].
    + rewrite imap_cons, <- app_assoc.
      rewrite (imap_ext _
        ((λ i '(a0, b0),
           <["_id" := VOid (new_ObjectId (n + i))]> (seed_doc a0 b0)) ∘ S)
        ps).
      * simpl. by rewrite Nat.add_0_r, Nat.add_succ_r.
      * intros i [a' b'] _. simpl. by rewrite Nat.add_succ_r.
    + apply Forall_app. split.
      * eapply Forall_impl; [exact Hfresh|]. intros e He i Hi.
        replace (S n + i)%nat with (n + S i)%nat by lia. apply He. simpl. lia.
      * apply Forall_singleton. intros i Hi. rewrite lookup_insert_eq.
        intros [= E]. apply Hhd. rewrite E.
        apply list_elem_of_fmap_2, elem_of_seq. lia.
Qed.

Lemma ensure_seeded_unfold (w : World) :
  _ensure_seeded new_ObjectId w =
  match db w with
  | None => (Raise (HTTPException 500 "Database not configured"), w)
  | Some D =>
      if Nat.eqb (length (prompt D)) 0
      then for_each STARTER_PROMPTS
             (λ '(a, b),
                let* _ := insert_one new_ObjectId (seed_doc a b) in ret tt) w
      else (Ok tt, w)
  end.
Proof.
  unfold _ensure_seeded, bind at 1, db_is_None.
  destruct (db w) as [D|] eqn:HD; simpl; [|done].
  unfold bind at 1, count_documents, bind at 1, collection. rewrite HD.
  unfold ret at 1. by destruct (Nat.eqb _ _).
Qed.

Lemma seeded_from_lookup (n i : nat) (d : doc) :
  seeded_from new_ObjectId n !! i = Some d →
  ∃ a b, STARTER_PROMPTS !! i = Some (a, b)
         ∧ d = <["_id" := VOid (new_ObjectId (n + i))]> (seed_doc a b).
Proof.
  unfold seeded_from. rewrite list_lookup_imap.
  destruct (STARTER_PROMPTS !! i) as [[a b]|]; [|done].
  intros [= <-]. by exists a, b.
Qed.

Lemma serialize_seeded (o : ObjectId) (a b : string) :
  _serialize (<["_id" := VOid o]> (seed_doc a b))
  = Ok (PromptResponse.mk (ObjectId_str o) a b "general" (Some "seed") 0 0).
Proof. by apply (serialize_fields _ o a b "general" (Some "seed") 0 0). Qed.
(** Seeding an empty collection, the generated identifiers being pairwise
    distinct. *)
Lemma ensure_seeded_empty (w : World) :
  db w = Some (mkDatabase []) →
  NoDup (new_ObjectId <$> seq (oid_count w) 6) →
  _ensure_seeded new_ObjectId w
  = (Ok tt, mkWorld (Some (mkDatabase (seeded_from new_ObjectId (oid_count w))))
                    (oid_count w + 6)).
Proof.
  intros HD Hnd. rewrite ensure_seeded_unfold, HD. cbn [prompt length Nat.eqb].
  destruct w as [dbw n]. cbn [db oid_count] in *. subst.
  rewrite seed_loop; [done | done | by apply Forall_nil].
Qed.

Lemma insert_one_raises (d : doc) (w w' : World) (e : exn) :
  insert_one new_ObjectId d w = (Raise e, w') →
  e = DuplicateKeyError ∨ e = TypeError.
Proof.
  destruct w as [[D|] n];
    unfold insert_one, bind, collection, ObjectId_new, set_collection,
           ret, raise; cbn [db oid_count]; [|intros [= <- _]; auto].
  destruct (d !! "_id"); cbn [db oid_count]; case_bool_decide;
    intros [= <- _]; auto.
Qed.

Lemma seed_loop_raises (ps : list (string * string)) (w w' : World)
    (e : exn) :
  for_each ps
    (λ '(a, b), let* _ := insert_one new_ObjectId (seed_doc a b) in ret tt) w
  = (Raise e, w') →
  e = DuplicateKeyError ∨ e = TypeError.
Proof.
  revert w. induction ps as [|[a b] ps IH]; intros w; [done|].
  cbn [for_each]. unfold bind at 1, bind at 1.
  destruct (insert_one new_ObjectId (seed_doc a b) w) as [[x|e0] w1] eqn:Hins.
  - unfold ret at 1. apply IH.
  - intros [= <- _]. by eapply insert_one_raises.
Qed.

Lemma insert_seed_nonempty (a b : string) (w w' : World) (x : doc * value) :
  insert_one new_ObjectId (seed_doc a b) w = (Ok x, w') → prompts w' ≠ [].
Proof.
  destruct (db w) as [D|] eqn:HD.
  - rewrite (insert_one_unfold _ w D HD (seed_doc_no_id a b)). cbv zeta.
    case_bool_decide; [done|]. intros [= _ <-]. unfold prompts. cbn [db prompt].
    by destruct (prompt D).
  - unfold insert_one, bind, collection. by rewrite HD.
Qed.
End insertion.

(** C4: with storage configured, [_ensure_seeded] on an empty collection
    inserts exactly the 6 starter pairs, in order, each with category
    "general", creator "seed" and both counts 0 (the identifiers it
    generates being pairwise distinct); on a non-empty collection it
    inserts nothing. *)
Theorem ensure_seeded_spec (new_ObjectId : nat → ObjectId) (w : World)
    (D : Database) :
  db w = Some D →
  (length (prompt D) = 0%nat →
   NoDup (new_ObjectId <$> seq (oid_count w) 6) →
   ∃ w', _ensure_seeded new_ObjectId w = (Ok tt, w')
     ∧ prompts w' = seeded_from new_ObjectId (oid_count w)
     ∧ length (prompts w') = 6%nat
     ∧ (λ d : doc, (d !! "option_a", d !! "option_b")) <$> prompts w'
       = (λ '(a, b), (Some (VStr a), Some (VStr b))) <$> STARTER_PROMPTS
     ∧ Forall (λ d : doc,
         d !! "category" = Some (VStr "general")
         ∧ d !! "created_by" = Some (VStr "seed")
         ∧ d !! "a_count" = Some (VInt 0)
         ∧ d !! "b_count" = Some (VInt 0)) (prompts w'))
  ∧ (length (prompt D) ≠ 0%nat →
     _ensure_seeded new_ObjectId w = (Ok tt, w)).
Proof.
  intros HD. split.
  - intros Hlen Hnd. destruct D as [c]. cbn [prompt] in Hlen.
    apply nil_length_inv in Hlen. subst c.
    rewrite (ensure_seeded_empty new_ObjectId w HD Hnd).
    eexists. split; [done|]. unfold prompts. cbn [db prompt].
    split_and!; [done..|]. by repeat constructor.
  - intros Hlen. rewrite ensure_seeded_unfold, HD. by destruct (prompt D).
Qed.

Lemma ensure_seeded_spec_witness :
  db empty_world = Some (mkDatabase [])
  ∧ ∃ w', _ensure_seeded counter_ObjectId empty_world = (Ok tt, w')
      ∧ length (prompts w') = 6%nat.
Proof.
  split; [reflexivity|].
  destruct (ensure_seeded_spec counter_ObjectId empty_world (mkDatabase [])
              eq_refl) as [Hseed _].
  destruct Hseed as (w' & H1 & _ & H3 & _); [reflexivity| |eauto].
  apply (bool_decide_unpack _). by vm_compute.
Defined.

(** ** Creation *)

(** A well-formed prompt and its serialisation determine each other's
    fields. *)
Lemma serialize_wf_inv (d : doc) (r : PromptResponse.t) :
  prompt_doc d = true → _serialize d = Ok r →
  ∃ o, d !! "_id" = Some (VOid o)
    ∧ PromptResponse.id r = ObjectId_str o
    ∧ d !! "option_a" = Some (VStr (PromptResponse.option_a r))
    ∧ d !! "option_b" = Some (VStr (PromptResponse.option_b r))
    ∧ d !! "category" = Some (VStr (PromptResponse.category r))
    ∧ d !! "created_by"
      = Some (from_option VStr VNone (PromptResponse.created_by r))
    ∧ d !! "a_count" = Some (VInt (PromptResponse.a_count r))
    ∧ d !! "b_count" = Some (VInt (PromptResponse.b_count r)).
Proof.
  intros (o & oa & ob & cat & cb & a & b & H)%prompt_doc_inv Hs.
  destruct H as (H1&H2&H3&H4&H5&H6&H7).
  rewrite (serialize_fields d o oa ob cat cb a b) in Hs by done.
  injection Hs as <-. by exists o.
Qed.

Lemma serialize_created_doc (o : ObjectId) (body : PromptCreate.t) :
  _serialize (created_doc o body)
  = Ok (PromptResponse.mk (ObjectId_str o)
          (PromptCreate.option_a body) (PromptCreate.option_b body)
          (PromptCreate.category body) (PromptCreate.created_by body) 0 0).
Proof. by apply serialize_fields. Qed.

Lemma prompt_doc_created_doc (o : ObjectId) (body : PromptCreate.t) :
  prompt_doc (created_doc o body) = true.
Proof.
  unfold prompt_doc, created_doc, PromptCreate.model_dump.
  simplify_map_eq. by destruct (PromptCreate.created_by body).
Qed.

Lemma create_prompt_unfold (new_ObjectId : nat → ObjectId)
    (body : PromptCreate.t) (w : World) (D : Database) :
  db w = Some D →
  create_prompt new_ObjectId body w =
  let o := new_ObjectId (oid_count w) in
  if bool_decide (Exists (λ e : doc, e !! "_id" = Some (VOid o)) (prompt D))
  then (Raise DuplicateKeyError, mkWorld (Some D) (S (oid_count w)))
  else (_serialize (created_doc o body),
        mkWorld (Some (mkDatabase (prompt D ++ [created_doc o body])))
                (S (oid_count w))).
Proof.
  intros HD. unfold create_prompt, bind at 1, db_is_None. rewrite HD.
  rewrite bool_decide_eq_false_2 by done. unfold bind at 1.
  rewrite (insert_one_unfold _ _ w D HD) by done. cbv zeta.
  case_bool_decide; [done|]. unfold lift, created_doc.
  by rewrite insert_insert_eq.
Qed.

(** C3: for every valid creation input, under configured storage: when
    the identifier the driver generates is unused, [create_prompt]
    answers with a response; and every response it answers with has both
    counts 0, carries the text form of the generated identifier, which is
    the identifier of the inserted record, and differs from the identifier
    of every prompt stored before. *)
Theorem create_prompt_fresh (new_ObjectId : nat → ObjectId)
    (a b : string) (cat by_ : option string) (body : PromptCreate.t)
    (w : World) (D : Database) :
  PromptCreate.validate a b cat by_ = Some body →
  db w = Some D → store_wf (prompt D) →
  (Forall (λ e : doc, e !! "_id" ≠ Some (VOid (new_ObjectId (oid_count w))))
          (prompt D) →
   ∃ r w', create_prompt new_ObjectId body w = (Ok r, w'))
  ∧ ∀ r w', create_prompt new_ObjectId body w = (Ok r, w') →
      PromptResponse.a_count r = 0 ∧ PromptResponse.b_count r = 0
      ∧ PromptResponse.id r = ObjectId_str (new_ObjectId (oid_count w))
      ∧ PromptResponse.option_a r = a ∧ PromptResponse.option_b r = b
      ∧ PromptResponse.category r = default "general" cat
      ∧ PromptResponse.created_by r = by_
      ∧ (∃ d : doc, prompts w' = (prompt D ++ [d])%list
              ∧ d !! "_id" = Some (VOid (new_ObjectId (oid_count w)))
              ∧ _serialize d = Ok r)
      ∧ ∀ e r0, e ∈ prompt D → _serialize e = Ok r0 →
          PromptResponse.id r0 ≠ PromptResponse.id r.
Proof.
  intros Hvalid HD [Hall Hnd].
  rewrite (create_prompt_unfold _ _ _ _ HD). cbv zeta.
  rewrite serialize_created_doc. split.
  - intros Hfresh. rewrite bool_decide_eq_false_2; [eauto|].
    intros (e & He & Heid)%Exists_exists.
    apply list_elem_of_lookup in He as [k Hk].
    by apply (Forall_lookup_1 _ _ _ _ Hfresh Hk).
  - intros r w'. case_bool_decide as Hdup; [done|]. intros [= <- <-].
    unfold PromptCreate.validate in Hvalid.
    destruct (_ && _); [|done]. injection Hvalid as <-.
    cbn [PromptResponse.a_count PromptResponse.b_count PromptResponse.id
         PromptResponse.option_a PromptResponse.option_b
         PromptResponse.category PromptResponse.created_by
         PromptCreate.option_a PromptCreate.option_b
         PromptCreate.category PromptCreate.created_by].
    split_and!; try done.
    + eexists. unfold prompts. cbn [db prompt]. split; [done|].
      split; [apply lookup_insert_eq | apply serialize_created_doc].
    + intros e r0 He Hs Hid. apply Hdup, Exists_exists. exists e.
      split; [done|]. apply list_elem_of_lookup in He as [k Hk].
      pose proof (Forall_lookup_1 _ _ _ _ Hall Hk) as Hpd.
      destruct (serialize_wf_inv e r0 Hpd Hs) as (o & Ho & Hido & _).
      rewrite Hid in Hido. apply ObjectId_str_inj in Hido. by rewrite Hido.
Qed.

Lemma create_prompt_fresh_witness :
  PromptCreate.validate "cats" "dogs" None (Some "ana")
  = Some (PromptCreate.mk "cats" "dogs" "general" (Some "ana"))
  ∧ store_wf (prompt sample_database)
  ∧ ∃ r w', create_prompt counter_ObjectId
              (PromptCreate.mk "cats" "dogs" "general" (Some "ana"))
              sample_world = (Ok r, w').
Proof.
  assert (store_wf (prompt sample_database)) as Hwf.
  { apply (bool_decide_unpack _). by vm_compute. }
  split; [reflexivity|]. split; [exact Hwf|].
  destruct (create_prompt_fresh counter_ObjectId "cats" "dogs" None
              (Some "ana")
              (PromptCreate.mk "cats" "dogs" "general" (Some "ana"))
              sample_world sample_database eq_refl eq_refl Hwf) as [Hok _].
  apply Hok. apply (bool_decide_unpack _). by vm_compute.
Defined.

(** ** Ranking *)

Lemma result_map_Forall2 {A B} (f : A → result B) (xs : list A)
    (ys : list B) :
  result_map f xs = Ok ys ↔ Forall2 (λ x y, f x = Ok y) xs ys.
Proof.
  revert ys. induction xs as [|x xs IH]; intros ys; simpl.
  - split; [intros [= <-]; constructor | by intros ->%Forall2_nil_inv_l].
  - unfold result_bind. split.
    + destruct (f x) as [y|] eqn:Hy; [|done].
      destruct (result_map f xs) as [ys'|] eqn:Hys; [|done].
      intros [= <-]. constructor; [done|]. by apply IH.
    + intros (y & ys' & Hy & Hys & ->)%Forall2_cons_inv_l.
      rewrite Hy. apply IH in Hys. by rewrite Hys.
Qed.

Lemma result_map_serialize_wf (ds : list doc) :
  Forall (λ d, prompt_doc d = true) ds →
  ∃ rs, result_map _serialize ds = Ok rs.
Proof.
  induction 1 as [|d ds Hd _ [rs IH]]; simpl; [by eexists|].
  destruct (serialize_prompt_doc d Hd) as [r Hr].
  rewrite Hr, IH. simpl. by eexists.
Qed.

Lemma Sorted_lookup_adjacent {A} (R : relation A) (l : list A) i x y :
  Sorted R l → l !! i = Some x → l !! S i = Some y → R x y.
Proof.
  intros Hs. revert i. induction Hs as [|z l Hs IH Hhd]; intros i; [done|].
  destruct i as [|i]; simpl.
  - intros [= ->] Hy. destruct Hhd as [|z' l' Hz]; [done|].
    simpl in Hy. by injection Hy as ->.
  - apply IH.
Qed.

Lemma top_prompts_unfold (limit : Z) (w : World) (D : Database) :
  db w = Some D →
  top_prompts limit w =
  (result_map _serialize
     (if limit =? 0 then merge_sort sorts_before (prompt D)
      else take (Z.abs_nat limit) (merge_sort sorts_before (prompt D))), w).
Proof.
  intros HD. unfold top_prompts, bind at 1, db_is_None. rewrite HD.
  rewrite bool_decide_eq_false_2 by done.
  unfold bind at 1, find_sort_limit, bind at 1, collection. rewrite HD.
  by unfold ret, lift.
Qed.

(** The documents a ranking request reads: sorted, well formed when the
    store is, and all of them stored. *)
Lemma ranked_docs (limit : Z) (c : list doc) :
  let docs := if limit =? 0 then merge_sort sorts_before c
              else take (Z.abs_nat limit) (merge_sort sorts_before c) in
  Sorted sorts_before docs
  ∧ (Forall (λ d, prompt_doc d = true) c →
     Forall (λ d, prompt_doc d = true) docs)
  ∧ (∀ d, d ∈ docs → d ∈ c)
  ∧ (limit ≠ 0 → (length docs ≤ Z.abs_nat limit)%nat)
  ∧ (limit = 0 → docs ≡ₚ c).
Proof.
  pose proof (Sorted_merge_sort sorts_before c) as Hs.
  pose proof (merge_sort_Permutation sorts_before c) as Hp.
  destruct (Z.eqb_spec limit 0) as [->|Hne]; cbv zeta.
  - split; [done|]. split; [by rewrite Hp|]. split; [by setoid_rewrite Hp|].
    done.
  - split.
    { clear Hp. generalize (Z.abs_nat limit). intros n. revert n.
      induction Hs as [|z l Hs IH Hhd]; intros [|n]; simpl; try constructor.
      - apply IH.
      - destruct Hhd; destruct n; simpl; by constructor. }
    split; [intros Hall; apply Forall_take; by rewrite Hp|].
    split.
    { intros d (i & Hi & _)%elem_of_take. rewrite <- Hp.
      by eapply list_elem_of_lookup_2. }
    split; [intros _; rewrite length_take; lia | done].
Qed.

(** C5, as stated, fails at limit 0: the whole collection comes back,
    three records for a requested limit of 0. *)
Lemma top_prompts_limit_0_counterexample :
  ∃ rs, top_prompts 0 sample_world = (Ok rs, sample_world)
        ∧ length rs = 3%nat ∧ ¬ (Z.of_nat (length rs) ≤ 0).
Proof.
  eexists. split; [by vm_compute|]. split; [done|]. simpl. lia.
Qed.

(** C5 (amended): in a well-formed store, a ranking request with a limit
    other than 0 returns at most |limit| records, so at most [limit]
    for every positive limit, and at most 10 when the limit is omitted;
    for every limit the records come in descending order of a_count,
    ties in descending order of b_count. *)
Theorem top_prompts_sorted_limit (limit : Z) (w : World) (D : Database) :
  db w = Some D → store_wf (prompt D) →
  ∃ rs rs10,
    top_prompts limit w = (Ok rs, w)
    ∧ (limit ≠ 0 → Z.of_nat (length rs) ≤ Z.abs limit)
    ∧ (0 < limit → Z.of_nat (length rs) ≤ limit)
    ∧ (∀ i r1 r2, rs !! i = Some r1 → rs !! S i = Some r2 →
         PromptResponse.a_count r2 ≤ PromptResponse.a_count r1
         ∧ (PromptResponse.a_count r1 = PromptResponse.a_count r2 →
            PromptResponse.b_count r2 ≤ PromptResponse.b_count r1))
    ∧ get_api_prompts_top None w = (Ok rs10, w)
    ∧ (length rs10 ≤ 10)%nat.
Proof.
  intros HD [Hall _].
  assert (∀ l, ∃ rs, top_prompts l w = (Ok rs, w)
     ∧ (l ≠ 0 → Z.of_nat (length rs) ≤ Z.abs l)
     ∧ (∀ i r1 r2, rs !! i = Some r1 → rs !! S i = Some r2 →
         PromptResponse.a_count r2 ≤ PromptResponse.a_count r1
         ∧ (PromptResponse.a_count r1 = PromptResponse.a_count r2 →
            PromptResponse.b_count r2 ≤ PromptResponse.b_count r1))) as Hgen.
  { intros l. rewrite (top_prompts_unfold l w D HD).
    destruct (ranked_docs l (prompt D)) as (Hs & Hwf & _ & Hlen & _).
    revert Hs Hwf Hlen. cbv zeta.
    generalize (if l =? 0 then merge_sort sorts_before (prompt D)
                else take (Z.abs_nat l) (merge_sort sorts_before (prompt D))).
    intros docs Hs Hwf Hlen. specialize (Hwf Hall).
    destruct (result_map_serialize_wf docs Hwf) as [rs Hrs].
    exists rs. rewrite Hrs. split; [done|].
    apply result_map_Forall2 in Hrs.
    split.
    { intros Hl. rewrite <- (Forall2_length _ _ _ Hrs).
      specialize (Hlen Hl). lia. }
    intros i r1 r2 H1 H2.
    destruct (Forall2_lookup_r _ _ _ _ _ Hrs H1) as (d1 & Hd1 & Hs1).
    destruct (Forall2_lookup_r _ _ _ _ _ Hrs H2) as (d2 & Hd2 & Hs2).
    pose proof (Sorted_lookup_adjacent _ _ _ _ _ Hs Hd1 Hd2) as Hord.
    destruct (serialize_wf_inv d1 r1 (Forall_lookup_1 _ _ _ _ Hwf Hd1) Hs1)
      as (_ & _ & _ & _ & _ & _ & _ & Ha1 & Hb1).
    destruct (serialize_wf_inv d2 r2 (Forall_lookup_1 _ _ _ _ Hwf Hd2) Hs2)
      as (_ & _ & _ & _ & _ & _ & _ & Ha2 & Hb2).
    by eapply sorts_before_counts. }
  destruct (Hgen limit) as (rs & Hrs & Hlen & Hord).
  destruct (Hgen 10) as (rs10 & Hrs10 & Hlen10 & _).
  exists rs, rs10. split; [done|]. split; [done|].
  split; [intros Hpos; specialize (Hlen ltac:(lia)); lia|].
  split; [done|]. split; [done|].
  specialize (Hlen10 ltac:(lia)). lia.
Qed.

Lemma top_prompts_sorted_limit_witness :
  db sample_world = Some sample_database
  ∧ store_wf (prompt sample_database)
  ∧ ∃ rs, top_prompts 2 sample_world = (Ok rs, sample_world)
          ∧ Z.of_nat (length rs) ≤ 2.
Proof.
  assert (store_wf (prompt sample_database)) as Hwf.
  { apply (bool_decide_unpack _). by vm_compute. }
  split; [reflexivity|]. split; [exact Hwf|].
  destruct (top_prompts_sorted_limit 2 sample_world sample_database
              eq_refl Hwf) as (rs & _ & Hrs & _ & Hlen & _).
  exists rs. split; [exact Hrs|]. apply Hlen. reflexivity.
Defined.

(** C9: in a well-formed store, a ranking request with limit 0 returns
    every stored prompt: as many records as the collection holds, the
    serialisations of its documents; on a non-empty collection that is
    more than the requested limit of 0. *)
Theorem top_prompts_limit_zero_all (w : World) (D : Database) :
  db w = Some D → store_wf (prompt D) →
  ∃ rs docs,
    top_prompts 0 w = (Ok rs, w)
    ∧ docs ≡ₚ prompt D
    ∧ Forall2 (λ d r, _serialize d = Ok r) docs rs
    ∧ length rs = length (prompt D)
    ∧ (∀ d, d ∈ prompt D → ∃ r, r ∈ rs ∧ _serialize d = Ok r)
    ∧ (prompt D ≠ [] → 0 < Z.of_nat (length rs)).
Proof.
  intros HD [Hall _]. rewrite (top_prompts_unfold 0 w D HD).
  destruct (ranked_docs 0 (prompt D)) as (_ & Hwf & _ & _ & Hperm).
  revert Hwf Hperm. cbv zeta. simpl Z.eqb. cbv iota.
  generalize (merge_sort sorts_before (prompt D)).
  intros docs Hwf Hperm. specialize (Hwf Hall). specialize (Hperm eq_refl).
  destruct (result_map_serialize_wf docs Hwf) as [rs Hrs].
  exists rs, docs. rewrite Hrs. apply result_map_Forall2 in Hrs.
  assert (length rs = length (prompt D)) as Hlen.
  { by rewrite <- (Forall2_length _ _ _ Hrs), Hperm. }
  split_and!; try done.
  - intros d Hd. rewrite <- Hperm in Hd.
    apply list_elem_of_lookup in Hd as [i Hi].
    destruct (Forall2_lookup_l _ _ _ _ _ Hrs Hi) as (r & Hr & Hs).
    exists r. split; [by eapply list_elem_of_lookup_2 | done].
  - intros Hne. rewrite Hlen. destruct (prompt D); [done|]. simpl. lia.
Qed.

Lemma top_prompts_limit_zero_all_witness :
  db sample_world = Some sample_database
  ∧ store_wf (prompt sample_database)
  ∧ ∃ rs, top_prompts 0 sample_world = (Ok rs, sample_world)
          ∧ length rs = 3%nat.
Proof.
  assert (store_wf (prompt sample_database)) as Hwf.
  { apply (bool_decide_unpack _). by vm_compute. }
  split; [reflexivity|]. split; [exact Hwf|].
  destruct (top_prompts_limit_zero_all sample_world sample_database
              eq_refl Hwf) as (rs & _ & Hrs & _ & _ & Hlen & _).
  exists rs. split; [exact Hrs | exact Hlen].
Defined.

(** ** What every request preserves *)

Global Instance extends_refl : Reflexive extends.
Proof. intros c. split; [done|]. intros d Hd. by exists d. Qed.

Global Instance extends_trans : Transitive extends.
Proof.
  intros c1 c2 c3 [Hwf1 H1] [Hwf2 H2]. split; [auto|].
  intros d Hd. destruct (H1 d Hd) as (d' & Hd' & E1).
  destruct (H2 d' Hd') as (d'' & Hd'' & E2).
  exists d''. split; [done|]. by rewrite E2.
Qed.

Lemma extends_set_count (c : list doc) (i : nat) (d : doc) (field : string)
    (x : Z) :
  c !! i = Some d → field = "a_count" ∨ field = "b_count" →
  extends c (<[i := <[field := VInt x]> d]> c).
Proof.
  intros Hi Hf.
  assert (static_fields (<[field := VInt x]> d) = static_fields d) as Hst.
  { unfold static_fields. by destruct Hf as [-> | ->]; simplify_map_eq. }
  split.
  - intros [Hall Hnd]. split.
    + apply Forall_insert; [done|]. apply prompt_doc_set_count; [|done].
      exact (Forall_lookup_1 _ _ _ _ Hall Hi).
    + rewrite list_fmap_insert.
      assert ((<[field := VInt x]> d : doc) !! "_id" = d !! "_id") as ->
        by (by injection Hst).
      rewrite list_insert_id; [done|]. by rewrite list_lookup_fmap, Hi.
  - intros e [j Hj]%list_elem_of_lookup.
    destruct (decide (j = i)) as [->|Hne].
    + assert (e = d) as -> by congruence.
      exists (<[field := VInt x]> d). split; [|done].
      apply list_elem_of_lookup. exists i.
      apply list_lookup_insert_eq. by eapply lookup_lt_Some.
    + exists e. split; [|done]. apply list_elem_of_lookup. exists j.
      by rewrite list_lookup_insert_ne.
Qed.

Lemma extends_snoc (c : list doc) (d : doc) (o : ObjectId) :
  prompt_doc d = true → d !! "_id" = Some (VOid o) →
  ¬ Exists (λ e : doc, e !! "_id" = Some (VOid o)) c →
  extends c (c ++ [d]).
Proof.
  intros Hpd Hid Hnew. split.
  - intros [Hall Hnd]. split.
    + apply Forall_app. split; [done|]. by apply Forall_singleton.
    + rewrite fmap_app. apply NoDup_app. split; [done|]. split.
      * intros v (e & -> & He)%list_elem_of_fmap Hv%list_elem_of_singleton.
        apply Hnew, Exists_exists. exists e. split; [done|]. by rewrite Hv.
      * apply NoDup_singleton.
  - intros e He. exists e. split; [|done]. apply elem_of_app. by left.
Qed.

Lemma store_wf_id_inj (c : list doc) (d e : doc) :
  store_wf c → d ∈ c → e ∈ c → d !! "_id" = e !! "_id" → d = e.
Proof.
  intros [_ Hnd] [i Hi]%list_elem_of_lookup [j Hj]%list_elem_of_lookup Heq.
  assert (i = j) as ->; [|congruence].
  eapply NoDup_lookup; [exact Hnd| |]; rewrite list_lookup_fmap.
  - by rewrite Hi.
  - rewrite Hj. simpl. by rewrite Heq.
Qed.

Lemma vote_extends (body : VoteRequest.t) (w : World) :
  extends (prompts w) (prompts (vote body w).2).
Proof.
  rewrite vote_unfold. destruct (db w) as [D|] eqn:HD; [|done].
  destruct (ObjectId_init _) as [oid|]; [|done]. cbv zeta.
  assert (∃ field, field = (if String.eqb (VoteRequest.option body) "a"
                            then "a_count" else "b_count")
                   ∧ (field = "a_count" ∨ field = "b_count"))
    as (field & <- & Hf).
  { eexists. split; [done|]. destruct (String.eqb _ _); auto. }
  destruct (find_one_and_update_inc oid field w) as [[[u|]|e] w1] eqn:Hfind;
    apply find_one_and_update_inc_inv in Hfind.
  - destruct Hfind as (D' & i & d & x & HD' & Hi & _ & _ & _ & -> & ->).
    assert (D' = D) as -> by congruence.
    unfold prompts. rewrite HD. simpl. by apply extends_set_count.
  - by destruct Hfind as [-> _].
  - by destruct Hfind as [-> _].
Qed.

Section preservation.
Variable new_ObjectId : nat → ObjectId.

Lemma create_prompt_extends (body : PromptCreate.t) (w : World) :
  extends (prompts w) (prompts (create_prompt new_ObjectId body w).2).
Proof.
  destruct (db w) as [D|] eqn:HD.
  - rewrite (create_prompt_unfold _ _ _ _ HD). cbv zeta.
    unfold prompts at 1. rewrite HD.
    case_bool_decide as Hdup; [done|]. unfold prompts. simpl.
    eapply extends_snoc; [apply prompt_doc_created_doc| |done].
    apply lookup_insert_eq.
  - unfold create_prompt, bind, db_is_None. by rewrite HD.
Qed.

Lemma insert_seed_extends (a b : string) (w : World) :
  extends (prompts w)
          (prompts (insert_one new_ObjectId (seed_doc a b) w).2).
Proof.
  destruct (db w) as [D|] eqn:HD.
  - rewrite (insert_one_unfold _ _ w D HD (seed_doc_no_id a b)). cbv zeta.
    unfold prompts at 1. rewrite HD.
    case_bool_decide as Hdup; [done|]. unfold prompts. simpl.
    eapply extends_snoc; [done| |done]. apply lookup_insert_eq.
  - unfold insert_one, bind, collection. by rewrite HD.
Qed.

Lemma seed_loop_extends (ps : list (string * string)) (w : World) :
  extends (prompts w)
    (prompts (for_each ps
       (λ '(a, b),
          let* _ := insert_one new_ObjectId (seed_doc a b) in ret tt) w).2).
Proof.
  revert w. induction ps as [|[a b] ps IH]; intros w; [done|].
  cbn [for_each]. unfold bind at 1, bind at 1.
  pose proof (insert_seed_extends a b w) as Hins.
  destruct (insert_one new_ObjectId (seed_doc a b) w) as [[x|e] w1];
    [|done].
  unfold ret at 1. by etrans.
Qed.

Lemma ensure_seeded_extends (w : World) :
  extends (prompts w) (prompts (_ensure_seeded new_ObjectId w).2).
Proof.
  rewrite ensure_seeded_unfold. destruct (db w) as [D|] eqn:HD; [|done].
  destruct (Nat.eqb _ _); [|done]. apply seed_loop_extends.
Qed.

Lemma get_random_prompt_extends (rnd : nat) (w : World) :
  extends (prompts w) (prompts (get_random_prompt new_ObjectId rnd w).2).
Proof.
  unfold get_random_prompt, bind at 1.
  pose proof (ensure_seeded_extends w) as Hseed.
  destruct (_ensure_seeded new_ObjectId w) as [[u|e] w1]; [|done].
  unfold bind, aggregate_sample_1, bind, collection, ret.
  destruct (db w1); [|done].
  by destruct (match prompt _ with [] => [] | _ => _ end).
Qed.

Lemma seed_loop_nonempty (ps : list (string * string)) (w w1 : World) :
  ps ≠ [] →
  for_each ps
    (λ '(a, b), let* _ := insert_one new_ObjectId (seed_doc a b) in ret tt) w
  = (Ok tt, w1) →
  prompts w1 ≠ [].
Proof.
  destruct ps as [|[a b] ps]; [done|]. intros _.
  cbn [for_each]. unfold bind at 1, bind at 1.
  destruct (insert_one new_ObjectId (seed_doc a b) w) as [[x|e0] w0] eqn:Hins;
    [|done].
  unfold ret at 1. intros Hloop.
  pose proof (insert_seed_nonempty new_ObjectId _ _ _ _ _ Hins) as Hne.
  pose proof (seed_loop_extends ps w0) as [_ Hkeep].
  rewrite Hloop in Hkeep. cbn [snd] in Hkeep.
  destruct (prompts w0) as [|d0 c0]; [done|].
  destruct (Hkeep d0) as (d' & Hd' & _); [apply list_elem_of_here|].
  intros Hnil. rewrite Hnil in Hd'. by apply elem_of_nil in Hd'.
Qed.

(** After a successful [_ensure_seeded] the collection is not empty. *)
Lemma ensure_seeded_Ok_nonempty (w w1 : World) (u : unit) :
  _ensure_seeded new_ObjectId w = (Ok u, w1) → prompts w1 ≠ [].
Proof.
  rewrite ensure_seeded_unfold. destruct (db w) as [D|] eqn:HD; [|done].
  destruct (Nat.eqb (length (prompt D)) 0) eqn:Hcount.
  - destruct u. by apply seed_loop_nonempty.
  - intros ?. simplify_eq. unfold prompts. rewrite HD.
    by destruct (prompt D).
Qed.

Lemma ensure_seeded_raises (w w1 : World) (e : exn) :
  _ensure_seeded new_ObjectId w = (Raise e, w1) →
  e = HTTPException 500 "Database not configured"
  ∨ e = DuplicateKeyError ∨ e = TypeError.
Proof.
  rewrite ensure_seeded_unfold. destruct (db w) as [D|] eqn:HD.
  - destruct (Nat.eqb (length (prompt D)) 0); [|done].
    intros H%seed_loop_raises. auto.
  - intros [= <- _]. auto.
Qed.

(** No request for a random prompt is answered 404: seeding leaves the
    collection non-empty or raises something else. *)
Lemma get_random_prompt_not_404 (rnd : nat) (w : World) (detail : string) :
  (get_random_prompt new_ObjectId rnd w).1 ≠ Raise (HTTPException 404 detail).
Proof.
  unfold get_random_prompt, bind at 1.
  destruct (_ensure_seeded new_ObjectId w) as [[u|e] w1] eqn:Hseed.
  - apply ensure_seeded_Ok_nonempty in Hseed.
    unfold bind at 1, aggregate_sample_1, bind at 1, collection.
    revert Hseed. unfold prompts.
    destruct (db w1) as [[c]|]; cbn [prompt]; [|done]. intros Hne.
    unfold ret at 1. destruct c as [|d0 c']; [done|].
    destruct (take 1 (drop (rnd mod length (d0 :: c')) (d0 :: c')))
      as [|d ds] eqn:Htake.
    + exfalso. apply (f_equal length) in Htake.
      rewrite length_take, length_drop in Htake.
      pose proof (Nat.mod_upper_bound rnd (length (d0 :: c'))) as Hlt.
      revert Htake Hlt. generalize (rnd mod length (d0 :: c'))%nat.
      intros k. cbn [length]. lia.
    + unfold lift. cbn [fst].
      destruct (_serialize d) as [r|e] eqn:Hser; [done|].
      by apply serialize_raises in Hser as [->|[->| ->]].
  - cbn [fst]. by apply ensure_seeded_raises in Hseed as [->|[->| ->]].
Qed.

Lemma top_prompts_world (limit : Z) (w : World) :
  (top_prompts limit w).2 = w.
Proof.
  destruct (db w) as [D|] eqn:HD.
  - by rewrite (top_prompts_unfold _ _ _ HD).
  - unfold top_prompts, bind, db_is_None. by rewrite HD.
Qed.

Lemma handle_extends (rq : request) (w : World) :
  extends (prompts w) (prompts (handle new_ObjectId rq w)).
Proof.
  destruct rq; simpl.
  - apply get_random_prompt_extends.
  - apply create_prompt_extends.
  - apply vote_extends.
  - by rewrite top_prompts_world.
Qed.

Lemma run_extends (rqs : list request) (w : World) :
  extends (prompts w) (prompts (run new_ObjectId rqs w)).
Proof.
  revert w. induction rqs as [|rq rqs IH]; intros w; [done|].
  simpl. etrans; [apply handle_extends | apply IH].
Qed.

(** Every state the service reaches from an empty collection is well
    formed. *)
Lemma run_store_wf (rqs : list request) (w : World) :
  prompts w = [] → store_wf (prompts (run new_ObjectId rqs w)).
Proof.
  intros Hw. destruct (run_extends rqs w) as [Hwf _]. apply Hwf.
  rewrite Hw. split; constructor.
Qed.
End preservation.

(** C6: on a configured, empty, never-seeded collection a request for a
    random prompt is never answered 404; the identifiers generated for
    the seeds being pairwise distinct, it seeds the collection with the 6
    starter prompts and answers with one of the 6 starter pairs (category
    "general", creator "seed", counts 0). *)
Theorem get_random_prompt_seeds (new_ObjectId : nat → ObjectId) (rnd : nat)
    (w : World) :
  db w = Some (mkDatabase []) →
  (∀ detail, (get_random_prompt new_ObjectId rnd w).1
             ≠ Raise (HTTPException 404 detail))
  ∧ (NoDup (new_ObjectId <$> seq (oid_count w) 6) →
     ∃ r w' a b,
       get_random_prompt new_ObjectId rnd w = (Ok r, w')
       ∧ (a, b) ∈ STARTER_PROMPTS
       ∧ r = PromptResponse.mk
               (ObjectId_str (new_ObjectId (oid_count w + rnd mod 6)%nat))
               a b "general" (Some "seed") 0 0
       ∧ prompts w' = seeded_from new_ObjectId (oid_count w)).
Proof.
  intros HD. split; [intros detail; apply get_random_prompt_not_404|].
  intros Hnd.
  pose proof (ensure_seeded_empty new_ObjectId w HD Hnd) as Hrun.
  assert (rnd mod 6 < 6)%nat as Hlt by (apply Nat.mod_upper_bound; lia).
  destruct (lookup_lt_is_Some_2 (seeded_from new_ObjectId (oid_count w))
              (rnd mod 6)) as [d Hd]; [done|].
  destruct (seeded_from_lookup _ _ _ _ Hd) as (a & b & Hab & ->).
  exists (PromptResponse.mk
            (ObjectId_str (new_ObjectId (oid_count w + rnd mod 6)%nat))
            a b "general" (Some "seed") 0 0),
         (mkWorld (Some (mkDatabase (seeded_from new_ObjectId (oid_count w))))
                  (oid_count w + 6)), a, b.
  split; [|split; [by eapply list_elem_of_lookup_2|done]].
  unfold get_random_prompt, bind at 1. rewrite Hrun.
  unfold bind at 1, aggregate_sample_1, bind at 1, collection. cbn [db prompt].
  unfold ret.
  replace (rnd mod length (seeded_from new_ObjectId (oid_count w)))%nat
    with (rnd mod 6)%nat by done.
  destruct (seeded_from new_ObjectId (oid_count w)) as [|d0 c'] eqn:Hc;
    [done|].
  rewrite (drop_S _ _ _ Hd), firstn_cons.
  unfold lift. by rewrite serialize_seeded.
Qed.

Lemma get_random_prompt_seeds_witness :
  db empty_world = Some (mkDatabase [])
  ∧ NoDup (counter_ObjectId <$> seq (oid_count empty_world) 6)
  ∧ ∃ r w', get_random_prompt counter_ObjectId 4 empty_world = (Ok r, w').
Proof.
  assert (NoDup (counter_ObjectId <$> seq (oid_count empty_world) 6)) as Hnd.
  { apply (bool_decide_unpack _). by vm_compute. }
  split; [reflexivity|]. split; [exact Hnd|].
  destruct (get_random_prompt_seeds counter_ObjectId 4 empty_world eq_refl)
    as [_ Hseeds].
  destruct (Hseeds Hnd) as (r & w' & _ & _ & H & _).
  eauto.
Defined.

(** C8: a record created by [create_prompt] and later returned by a
    ranking request, after any requests in between, is returned with the
    option_a, option_b, category and created_by of the creation response;
    and a ranking request without limit does return it. *)
Theorem create_top_roundtrip (new_ObjectId : nat → ObjectId)
    (body : PromptCreate.t) (w : World) (r : PromptResponse.t)
    (rqs : list request) (limit : Z) (rs : list PromptResponse.t) :
  store_wf (prompts w) →
  (create_prompt new_ObjectId body w).1 = Ok r →
  (top_prompts limit
     (run new_ObjectId rqs (create_prompt new_ObjectId body w).2)).1
  = Ok rs →
  (∀ r', r' ∈ rs → PromptResponse.id r' = PromptResponse.id r →
     PromptResponse.option_a r' = PromptResponse.option_a r
     ∧ PromptResponse.option_b r' = PromptResponse.option_b r
     ∧ PromptResponse.category r' = PromptResponse.category r
     ∧ PromptResponse.created_by r' = PromptResponse.created_by r)
  ∧ (limit = 0 →
     ∃ r', r' ∈ rs ∧ PromptResponse.id r' = PromptResponse.id r).
Proof.
  intros Hwf Hcreate Htop.
  pose proof (create_prompt_extends new_ObjectId body w) as [Hwf1 _].
  specialize (Hwf1 Hwf). revert Hcreate Htop Hwf1.
  destruct (db w) as [D|] eqn:HD; last first.
  { unfold create_prompt, bind, db_is_None. by rewrite HD. }
  rewrite (create_prompt_unfold _ _ _ _ HD). cbv zeta.
  case_bool_decide as Hdup; [done|]. rewrite serialize_created_doc.
  set (o := new_ObjectId (oid_count w)).
  set (w1 := mkWorld _ _). simpl. intros [= <-] Htop Hwf1.
  assert (created_doc o body ∈ prompts w1) as Hd0.
  { unfold prompts, w1. simpl. apply elem_of_app. right.
    by apply list_elem_of_singleton. }
  destruct (run_extends new_ObjectId rqs w1) as [Hwf2 Hkeep].
  specialize (Hwf2 Hwf1). destruct (Hkeep _ Hd0) as (d2 & Hd2 & Hst).
  set (w2 := run new_ObjectId rqs w1) in *.
  assert (d2 !! "_id" = Some (VOid o)
          ∧ d2 !! "option_a" = Some (VStr (PromptCreate.option_a body))
          ∧ d2 !! "option_b" = Some (VStr (PromptCreate.option_b body))
          ∧ d2 !! "category" = Some (VStr (PromptCreate.category body))
          ∧ d2 !! "created_by"
            = Some (from_option VStr VNone (PromptCreate.created_by body)))
    as (Hid2 & Ha2 & Hb2 & Hc2 & Hcb2).
  { unfold static_fields in Hst. injection Hst as -> -> -> -> ->.
    unfold created_doc, PromptCreate.model_dump. by simplify_map_eq. }
  revert Htop. unfold prompts in Hd2, Hwf2.
  destruct (db w2) as [D2|] eqn:HD2;
    [|by apply elem_of_nil in Hd2].
  rewrite (top_prompts_unfold limit w2 D2 HD2). simpl.
  destruct (ranked_docs limit (prompt D2)) as (_ & _ & Hsub & _ & Hperm).
  revert Hsub Hperm. cbv zeta.
  generalize (if limit =? 0 then merge_sort sorts_before (prompt D2)
              else take (Z.abs_nat limit)
                     (merge_sort sorts_before (prompt D2))).
  intros docs Hsub Hperm Hrs%result_map_Forall2.
  assert (∀ d' r', d' ∈ prompt D2 → _serialize d' = Ok r' →
            PromptResponse.id r' = ObjectId_str o → d' = d2) as Hsame.
  { intros d' r' Hd' Hs' Hid'.
    assert (prompt_doc d' = true) as Hpd'.
    { destruct Hwf2 as [Hall _].
      apply list_elem_of_lookup in Hd' as [k Hk].
      exact (Forall_lookup_1 _ _ _ _ Hall Hk). }
    destruct (serialize_wf_inv d' r' Hpd' Hs') as (o' & Ho' & Hido' & _).
    rewrite Hid' in Hido'. apply ObjectId_str_inj in Hido'. subst o'.
    apply (store_wf_id_inj (prompt D2)); [done..|]. by rewrite Ho', Hid2. }
  assert (prompt_doc d2 = true) as Hpd2.
  { destruct Hwf2 as [Hall _]. apply list_elem_of_lookup in Hd2 as [k Hk].
    exact (Forall_lookup_1 _ _ _ _ Hall Hk). }
  split.
  - intros r' [i Hi]%list_elem_of_lookup Hid'.
    destruct (Forall2_lookup_r _ _ _ _ _ Hrs Hi) as (d' & Hd' & Hs').
    assert (d' = d2) as ->.
    { eapply Hsame; [|done..]. eapply Hsub, list_elem_of_lookup_2, Hd'. }
    destruct (serialize_wf_inv d2 r' Hpd2 Hs')
      as (_ & _ & _ & Ha & Hb & Hc & Hcb & _).
    rewrite Ha2 in Ha. rewrite Hb2 in Hb. rewrite Hc2 in Hc.
    rewrite Hcb2 in Hcb. simplify_eq. split_and!; try done.
    by destruct (PromptResponse.created_by r'),
                (PromptCreate.created_by body); simplify_eq.
  - intros Hl. specialize (Hperm Hl). rewrite <- Hperm in Hd2.
    apply list_elem_of_lookup in Hd2 as [i Hi].
    destruct (Forall2_lookup_l _ _ _ _ _ Hrs Hi) as (r' & Hr' & Hs').
    exists r'. split; [by eapply list_elem_of_lookup_2|].
    destruct (serialize_wf_inv d2 r' Hpd2 Hs') as (o' & Ho' & Hido' & _).
    rewrite Hid2 in Ho'. by simplify_eq.
Qed.

Lemma create_top_roundtrip_witness :
  ∃ r rs,
    store_wf (prompts sample_world)
    ∧ (create_prompt counter_ObjectId
         (PromptCreate.mk "cats" "dogs" "pets" None) sample_world).1 = Ok r
    ∧ (top_prompts 0
         (run counter_ObjectId
            [Vote (VoteRequest.mk "654f1a2b0011223344000003" "b");
             GetRandomPrompt 2]
            (create_prompt counter_ObjectId
               (PromptCreate.mk "cats" "dogs" "pets" None) sample_world).2)).1
      = Ok rs
    ∧ ∃ r', r' ∈ rs ∧ PromptResponse.id r' = PromptResponse.id r.
Proof.
  assert (store_wf (prompts sample_world)) as Hwf.
  { apply (bool_decide_unpack _). by vm_compute. }
  eexists _, _. split; [exact Hwf|].
  split; [vm_compute; reflexivity|]. split; [vm_compute; reflexivity|].
  eapply (create_top_roundtrip counter_ObjectId
            (PromptCreate.mk "cats" "dogs" "pets" None) sample_world _
            [Vote (VoteRequest.mk "654f1a2b0011223344000003" "b");
             GetRandomPrompt 2] 0 _ Hwf);
    [vm_compute; reflexivity | vm_compute; reflexivity | reflexivity].
Defined.

(** ** Worked examples *)

(** Voting on a prompt with counts (3, 5). *)
Example vote_a_on_3_5 :
  (vote (VoteRequest.mk "654f1a2b0011223344000000" "a") sample_world).1
  = Ok (PromptResponse.mk "654f1a2b0011223344000000" "tea" "coffee"
          "general" (Some "seed") 4 5).
Proof. vm_compute. reflexivity. Qed.

Example vote_b_on_3_5 :
  (vote (VoteRequest.mk "654f1a2b0011223344000000" "b") sample_world).1
  = Ok (PromptResponse.mk "654f1a2b0011223344000000" "tea" "coffee"
          "general" (Some "seed") 3 6).
Proof. vm_compute. reflexivity. Qed.

(** Upper-case hexadecimal digits name the same identifier. *)
Example vote_upper_case_id :
  (vote (VoteRequest.mk "654F1A2B0011223344000000" "a") sample_world).1
  = (vote (VoteRequest.mk "654f1a2b0011223344000000" "a") sample_world).1.
Proof. vm_compute. reflexivity. Qed.

(** A well-formed identifier that is not stored. *)
Example vote_unknown_id :
  vote (VoteRequest.mk "0123456789abcdef01234567" "a") sample_world
  = (Raise (HTTPException 404 "Prompt not found"), sample_world).
Proof. vm_compute. reflexivity. Qed.

(** The two leading prompts of the sample store: (4, 2) before (4, 1). *)
Example top_2_of_sample :
  (λ r, (PromptResponse.a_count r, PromptResponse.b_count r))
    <$> match (top_prompts 2 sample_world).1 with
        | Ok rs => rs
        | Raise _ => []
        end
  = [(4, 2); (4, 1)].
Proof. vm_compute. reflexivity. Qed.

(** A negative limit is applied as its absolute value. *)
Example top_minus_1_of_sample :
  (λ r, (PromptResponse.a_count r, PromptResponse.b_count r))
    <$> match (top_prompts (-1) sample_world).1 with
        | Ok rs => rs
        | Raise _ => []
        end
  = [(4, 2)].
Proof. vm_compute. reflexivity. Qed.

(** Validation of creation and vote requests. *)
Example validate_short_option :
  PromptCreate.validate "ab" "coffee" None None = None.
Proof. reflexivity. Qed.

Example validate_defaults :
  PromptCreate.validate "tea" "coffee" None None
  = Some (PromptCreate.mk "tea" "coffee" "general" None).
Proof. reflexivity. Qed.

Example validate_vote_option :
  VoteRequest.validate "654f1a2b0011223344000000" "c" = None.
Proof. reflexivity. Qed.

(** [int] on the strings it accepts and rejects. *)
Example int_of_str_examples :
  int_of_str " -1_000 " = Some (-1000) ∧ int_of_str "+007" = Some 7
  ∧ int_of_str "1__0" = None ∧ int_of_str "_1" = None
  ∧ int_of_str "1_" = None ∧ int_of_str "" = None
  ∧ int_of_str "- 5" = None.
Proof. by vm_compute. Qed.

Example py_str_examples :
  py_str (VInt (-12)) = "-12" ∧ py_str VNone = "None"
  ∧ py_str (VOid (counter_ObjectId 300)) = "654f1a2b001122334400012c".
Proof. by vm_compute. Qed.

(** The vertical tab is stripped by [int], the unit separator is not. *)
Example int_of_str_control_characters :
  int_of_str (String (ascii_of_N 11) "5") = Some 5
  ∧ int_of_str (String (ascii_of_N 31) "5") = None.
Proof. by vm_compute. Qed.

(** Whitespace between digit pairs is skipped, inside a pair it is not;
    24 characters with whitespace are accepted by the constructor and
    denote no 12-byte identifier. *)
Example fromhex_examples :
  fromhex "01 23" = Some [x01; x23] ∧ fromhex "01 " = Some [x01]
  ∧ fromhex "0 1" = None ∧ fromhex "0g" = None
  ∧ ObjectId_init "01 23 456789abcdef012345"
    = Some [x01; x23; x45; x67; x89; xab; xcd; xef; x01; x23; x45]
  ∧ ObjectId_parse "01 23 456789abcdef012345" = None
  ∧ ObjectId_init "0123456789abcdef0123456" = None.
Proof. by vm_compute. Qed.

(** Characters are counted, not bytes. *)
Example py_len_examples :
  py_len "délai" = 5%nat ∧ String.length "délai" = 6%nat
  ∧ py_prefix 2 "délai" = "dé" ∧ py_prefix 0 "délai" = ""
  ∧ py_prefix 9 "délai" = "délai".
Proof. by vm_compute. Qed.

(** * Further properties of the handlers *)

(** ** Votes on stored and on absent prompts *)

(** A vote for a prompt of a well-formed store, by the option's first
    test in the handler. *)
Lemma vote_stored (body : VoteRequest.t) (w : World) (D : Database)
    (d : doc) (o : ObjectId) (oa ob cat : string) (cb : option string)
    (x y : Z) :
  db w = Some D → store_wf (prompt D) → d ∈ prompt D →
  d !! "_id" = Some (VOid o) → d !! "option_a" = Some (VStr oa) →
  d !! "option_b" = Some (VStr ob) → d !! "category" = Some (VStr cat) →
  d !! "created_by" = Some (from_option VStr VNone cb) →
  d !! "a_count" = Some (VInt x) → d !! "b_count" = Some (VInt y) →
  ObjectId_parse (VoteRequest.prompt_id body) = Some o →
  ∃ i, prompt D !! i = Some d
    ∧ vote body w =
      if String.eqb (VoteRequest.option body) "a"
      then (Ok (PromptResponse.mk (ObjectId_str o) oa ob cat cb (x + 1) y),
            mkWorld (Some (mkDatabase
              (<[i := <["a_count" := VInt (x + 1)]> d]> (prompt D))))
              (oid_count w))
      else (Ok (PromptResponse.mk (ObjectId_str o) oa ob cat cb x (y + 1)),
            mkWorld (Some (mkDatabase
              (<[i := <["b_count" := VInt (y + 1)]> d]> (prompt D))))
              (oid_count w)).
Proof.
  intros HD Hwf Hd H1 H2 H3 H4 H5 H6 H7 Hparse%ObjectId_parse_init.
  rewrite vote_unfold, HD, Hparse. cbv zeta.
  destruct (String.eqb (VoteRequest.option body) "a").
  - destruct (find_one_and_update_inc_wf o "a_count" w D d x)
      as (i & Hi & ->); try done.
    exists i. split; [done|].
    rewrite bool_decide_eq_false_2 by apply insert_non_empty.
    by erewrite serialize_fields by (simplify_map_eq; done).
  - destruct (find_one_and_update_inc_wf o "b_count" w D d y)
      as (i & Hi & ->); try done.
    exists i. split; [done|].
    rewrite bool_decide_eq_false_2 by apply insert_non_empty.
    by erewrite serialize_fields by (simplify_map_eq; done).
Qed.

(** X1: under configured storage, a vote whose [prompt_id] is a valid
    identifier that no stored document carries is answered 404, "Prompt
    not found", and nothing is written. *)
Theorem vote_absent_404 (body : VoteRequest.t) (w : World) (D : Database)
    (oid : ObjectId) :
  db w = Some D →
  ObjectId_parse (VoteRequest.prompt_id body) = Some oid →
  Forall (λ e : doc, e !! "_id" ≠ Some (VOid oid)) (prompt D) →
  vote body w = (Raise (HTTPException 404 "Prompt not found"), w).
Proof.
  intros HD Hparse%ObjectId_parse_init Habsent.
  rewrite vote_unfold, HD, Hparse. cbv zeta.
  unfold find_one_and_update_inc, bind, collection. rewrite HD.
  rewrite (proj2 (list_find_None _ _)); [done|].
  eapply Forall_impl; [exact Habsent|]. intros e He Hm. apply He.
  by apply id_matches_binary.
Qed.

Lemma vote_absent_404_witness :
  db sample_world = Some sample_database
  ∧ ObjectId_parse "0123456789abcdef01234567" = Some absent_ObjectId
  ∧ vote (VoteRequest.mk "0123456789abcdef01234567" "b") sample_world
    = (Raise (HTTPException 404 "Prompt not found"), sample_world).
Proof.
  assert (ObjectId_parse "0123456789abcdef01234567" = Some absent_ObjectId)
    as Hparse by (vm_compute; reflexivity).
  split; [reflexivity|]. split; [exact Hparse|].
  apply (vote_absent_404 (VoteRequest.mk "0123456789abcdef01234567" "b")
           sample_world sample_database absent_ObjectId eq_refl Hparse).
  apply (bool_decide_unpack _). by vm_compute.
Defined.



(** X2: while storage is unconfigured, seeding, the random-prompt route,
    creation and ranking all answer 500, "Database not configured", for
    every input, and leave the world as it is. *)
Theorem unconfigured_500 (new_ObjectId : nat → ObjectId) (w : World)
    (rnd : nat) (body : PromptCreate.t) (limit : Z) :
  db w = None →
  _ensure_seeded new_ObjectId w
  = (Raise (HTTPException 500 "Database not configured"), w)
  ∧ get_random_prompt new_ObjectId rnd w
    = (Raise (HTTPException 500 "Database not configured"), w)
  ∧ create_prompt new_ObjectId body w
    = (Raise (HTTPException 500 "Database not configured"), w)
  ∧ top_prompts limit w
    = (Raise (HTTPException 500 "Database not configured"), w).
Proof.
  intros HD.
  assert (_ensure_seeded new_ObjectId w
          = (Raise (HTTPException 500 "Database not configured"), w)) as Hseed
    by (by rewrite ensure_seeded_unfold, HD).
  split; [done|]. split.
  - unfold get_random_prompt, bind at 1. by rewrite Hseed.
  - unfold create_prompt, top_prompts, bind, db_is_None. by rewrite HD.
Qed.

Lemma unconfigured_500_witness :
  db unconfigured_world = None
  ∧ top_prompts 5 unconfigured_world
    = (Raise (HTTPException 500 "Database not configured"),
       unconfigured_world).
Proof.
  split; [reflexivity|].
  apply (unconfigured_500 counter_ObjectId unconfigured_world 0
           (PromptCreate.mk "tea" "coffee" "general" None) 5 eq_refl).
Defined.

(** ** Identifiers served and sent back *)

(** X3: the [id] of the serialisation of any prompt of a well-formed
    store, sent back as [prompt_id] of a validated vote, addresses that
    prompt: the vote is accepted, the answer carries the same id, options,
    category and creator, and the count of the chosen option is one
    higher. *)
Theorem served_id_is_votable (w : World) (D : Database) (d : doc)
    (r : PromptResponse.t) (opt : string) :
  db w = Some D → store_wf (prompt D) → d ∈ prompt D →
  _serialize d = Ok r → VoteRequest.pattern_ok opt = true →
  ∃ r' w',
    vote (VoteRequest.mk (PromptResponse.id r) opt) w = (Ok r', w')
    ∧ PromptResponse.id r' = PromptResponse.id r
    ∧ PromptResponse.option_a r' = PromptResponse.option_a r
    ∧ PromptResponse.option_b r' = PromptResponse.option_b r
    ∧ PromptResponse.category r' = PromptResponse.category r
    ∧ PromptResponse.created_by r' = PromptResponse.created_by r
    ∧ (opt = "a" →
       PromptResponse.a_count r' = PromptResponse.a_count r + 1
       ∧ PromptResponse.b_count r' = PromptResponse.b_count r)
    ∧ (opt = "b" →
       PromptResponse.a_count r' = PromptResponse.a_count r
       ∧ PromptResponse.b_count r' = PromptResponse.b_count r + 1).
Proof.
  intros HD Hwf Hd Hs Hopt.
  assert (prompt_doc d = true) as Hpd.
  { destruct Hwf as [Hall _]. apply list_elem_of_lookup in Hd as [k Hk].
    exact (Forall_lookup_1 _ _ _ _ Hall Hk). }
  destruct (serialize_wf_inv d r Hpd Hs)
    as (o & H1 & Hid & H2 & H3 & H4 & H5 & H6 & H7).
  destruct (vote_stored (VoteRequest.mk (PromptResponse.id r) opt) w D d o
              _ _ _ _ _ _ HD Hwf Hd H1 H2 H3 H4 H5 H6 H7) as (i & _ & Hvote).
  { simpl. rewrite Hid. apply ObjectId_parse_str. }
  rewrite Hvote. cbn [VoteRequest.option].
  destruct (vote_field_cases _ Hopt) as [[-> _]|[-> _]]; simpl;
    eexists _, _; (split; [done|]); simpl; split_and!; done.
Qed.

Lemma served_id_is_votable_witness :
  store_wf (prompt sample_database)
  ∧ _serialize (sample_prompt 2 4 2) = Ok (sample_response 2 4 2)
  ∧ ∃ r' w',
      vote (VoteRequest.mk (PromptResponse.id (sample_response 2 4 2)) "a")
           sample_world = (Ok r', w')
      ∧ PromptResponse.a_count r' = 5.
Proof.
  assert (store_wf (prompt sample_database)) as Hwf.
  { apply (bool_decide_unpack _). by vm_compute. }
  assert (_serialize (sample_prompt 2 4 2) = Ok (sample_response 2 4 2))
    as Hs by (vm_compute; reflexivity).
  split; [exact Hwf|]. split; [exact Hs|].
  destruct (served_id_is_votable sample_world sample_database
              (sample_prompt 2 4 2) (sample_response 2 4 2) "a" eq_refl Hwf)
    as (r' & w' & H);
    [by repeat constructor | exact Hs | reflexivity |].
  destruct H as (Hvote & _ & _ & _ & _ & _ & Ha & _).
  exists r', w'. split; [exact Hvote|]. by destruct (Ha eq_refl) as [-> _].
Defined.

(** X4: in a well-formed store, two stored prompts that are served under
    the same [id] are the same document: the ids handed out tell the
    prompts apart. *)
Theorem served_ids_distinct (c : list doc) (d1 d2 : doc)
    (r1 r2 : PromptResponse.t) :
  store_wf c → d1 ∈ c → d2 ∈ c →
  _serialize d1 = Ok r1 → _serialize d2 = Ok r2 →
  PromptResponse.id r1 = PromptResponse.id r2 → d1 = d2.
Proof.
  intros Hwf Hd1 Hd2 Hs1 Hs2 Hid.
  assert (∀ d, d ∈ c → prompt_doc d = true) as Hpd.
  { intros d [k Hk]%list_elem_of_lookup. destruct Hwf as [Hall _].
    exact (Forall_lookup_1 _ _ _ _ Hall Hk). }
  destruct (serialize_wf_inv d1 r1 (Hpd _ Hd1) Hs1) as (o1 & Ho1 & Hid1 & _).
  destruct (serialize_wf_inv d2 r2 (Hpd _ Hd2) Hs2) as (o2 & Ho2 & Hid2 & _).
  apply (store_wf_id_inj c); [done..|].
  rewrite Ho1, Ho2. do 2 f_equal. apply ObjectId_str_inj. congruence.
Qed.

Lemma served_ids_distinct_witness :
  store_wf (prompt sample_database)
  ∧ _serialize (sample_prompt 1 4 1) = Ok (sample_response 1 4 1)
  ∧ sample_prompt 1 4 1 = sample_prompt 1 4 1.
Proof.
  assert (store_wf (prompt sample_database)) as Hwf.
  { apply (bool_decide_unpack _). by vm_compute. }
  assert (_serialize (sample_prompt 1 4 1) = Ok (sample_response 1 4 1))
    as Hs by (vm_compute; reflexivity).
  split; [exact Hwf|]. split; [exact Hs|].
  apply (served_ids_distinct (prompt sample_database) (sample_prompt 1 4 1)
           (sample_prompt 1 4 1) (sample_response 1 4 1)
           (sample_response 1 4 1) Hwf);
    [by repeat constructor | by repeat constructor | exact Hs | exact Hs
    | reflexivity].
Defined.

(** X5: a prompt just created can be voted on with the id of the creation
    response: the first validated vote is answered with counts (1, 0) for
    option "a" and (0, 1) for option "b", under the same id and with the
    options, category and creator of the creation response. *)
Theorem create_then_vote (new_ObjectId : nat → ObjectId)
    (body : PromptCreate.t) (w w1 : World) (r : PromptResponse.t)
    (opt : string) :
  store_wf (prompts w) →
  create_prompt new_ObjectId body w = (Ok r, w1) →
  VoteRequest.pattern_ok opt = true →
  ∃ r' w2,
    vote (VoteRequest.mk (PromptResponse.id r) opt) w1 = (Ok r', w2)
    ∧ PromptResponse.id r' = PromptResponse.id r
    ∧ PromptResponse.option_a r' = PromptResponse.option_a r
    ∧ PromptResponse.option_b r' = PromptResponse.option_b r
    ∧ PromptResponse.category r' = PromptResponse.category r
    ∧ PromptResponse.created_by r' = PromptResponse.created_by r
    ∧ (opt = "a" →
       PromptResponse.a_count r' = 1 ∧ PromptResponse.b_count r' = 0)
    ∧ (opt = "b" →
       PromptResponse.a_count r' = 0 ∧ PromptResponse.b_count r' = 1).
Proof.
  intros Hwf Hcreate Hopt.
  pose proof (create_prompt_extends new_ObjectId body w) as [Hwf1 _].
  specialize (Hwf1 Hwf). revert Hcreate Hwf1.
  destruct (db w) as [D|] eqn:HD; last first.
  { unfold create_prompt, bind, db_is_None. by rewrite HD. }
  rewrite (create_prompt_unfold _ _ _ _ HD). cbv zeta.
  case_bool_decide as Hdup; [done|]. rewrite serialize_created_doc.
  set (o := new_ObjectId (oid_count w)). intros [= <- <-].
  unfold prompts. cbn [snd db prompt]. intros Hwf1.
  edestruct (vote_stored
               (VoteRequest.mk (ObjectId_str o) opt)
               (mkWorld (Some (mkDatabase (prompt D ++ [created_doc o body])))
                        (S (oid_count w)))
               (mkDatabase (prompt D ++ [created_doc o body]))
               (created_doc o body) o
               (PromptCreate.option_a body) (PromptCreate.option_b body)
               (PromptCreate.category body) (PromptCreate.created_by body)
               0 0 eq_refl Hwf1) as (i & _ & Hvote);
    try (unfold created_doc, PromptCreate.model_dump; by simplify_map_eq).
  { apply elem_of_app. right. by apply list_elem_of_singleton. }
  { apply ObjectId_parse_str. }
  cbn [PromptResponse.id]. rewrite Hvote. cbn [VoteRequest.option].
  destruct (vote_field_cases _ Hopt) as [[-> _]|[-> _]]; simpl;
    eexists _, _; (split; [done|]); simpl; split_and!; done.
Qed.

Lemma create_then_vote_witness :
  store_wf (prompts sample_world)
  ∧ ∃ r w1 r' w2,
      create_prompt counter_ObjectId
        (PromptCreate.mk "cats" "dogs" "pets" None) sample_world = (Ok r, w1)
      ∧ vote (VoteRequest.mk (PromptResponse.id r) "b") w1 = (Ok r', w2)
      ∧ PromptResponse.b_count r' = 1.
Proof.
  assert (store_wf (prompts sample_world)) as Hwf.
  { apply (bool_decide_unpack _). by vm_compute. }
  split; [exact Hwf|].
  destruct (create_prompt counter_ObjectId
              (PromptCreate.mk "cats" "dogs" "pets" None) sample_world)
    as [[r|e] w1] eqn:Hcreate; [|by vm_compute in Hcreate].
  destruct (create_then_vote counter_ObjectId _ _ _ _ "b" Hwf Hcreate eq_refl)
    as (r' & w2 & Hvote & _ & _ & _ & _ & _ & _ & Hb).
  exists r, w1, r', w2. split; [done|]. split; [exact Hvote|].
  by destruct (Hb eq_refl).
Defined.

(** ** Votes add up *)

Lemma count_option_cons (o o' : string) (options : list string) :
  count_option o (o' :: options)
  = (if decide (o' = o) then 1 else 0) + count_option o options.
Proof.
  unfold count_option. rewrite filter_cons.
  destruct (decide (o' = o)); simpl length; lia.
Qed.

(** X6: validated votes on one prompt of a well-formed store add up: after
    any series of them the prompt is stored under the same identifier,
    with the same options, category and creator, its a_count raised by
    the number of "a" votes and its b_count by the number of "b" votes. *)
Theorem votes_accumulate (new_ObjectId : nat → ObjectId)
    (options : list string) (w : World) (D : Database) (d : doc)
    (oid : ObjectId) (x y : Z) :
  db w = Some D → store_wf (prompt D) → d ∈ prompt D →
  d !! "_id" = Some (VOid oid) →
  d !! "a_count" = Some (VInt x) → d !! "b_count" = Some (VInt y) →
  Forall (λ o, VoteRequest.pattern_ok o = true) options →
  ∃ d',
    d' ∈ prompts (run new_ObjectId (votes_on (ObjectId_str oid) options) w)
    ∧ static_fields d' = static_fields d
    ∧ d' !! "a_count" = Some (VInt (x + count_option "a" options))
    ∧ d' !! "b_count" = Some (VInt (y + count_option "b" options)).
Proof.
  intros HD Hwf Hd Hid Ha Hb Hopts.
  revert w D d x y HD Hwf Hd Hid Ha Hb.
  induction Hopts as [|o options Ho _ IH]; intros w D d x y HD Hwf Hd Hid Ha Hb.
  - exists d. unfold prompts, count_option. simpl. rewrite HD, !Z.add_0_r.
    done.
  - assert (prompt_doc d = true) as Hpd.
    { destruct Hwf as [Hall _]. apply list_elem_of_lookup in Hd as [k Hk].
      exact (Forall_lookup_1 _ _ _ _ Hall Hk). }
    apply prompt_doc_inv in Hpd
      as (o0 & oa & ob & cat & cb & a & b & H1 & H2 & H3 & H4 & H5 & H6 & H7).
    assert (o0 = oid) as -> by congruence.
    assert (a = x) as -> by congruence. assert (b = y) as -> by congruence.
    destruct (vote_stored (VoteRequest.mk (ObjectId_str oid) o) w D d oid
                oa ob cat cb x y HD Hwf Hd H1 H2 H3 H4 H5 H6 H7
                (ObjectId_parse_str oid)) as (i & Hi & Hvote).
    cbn [votes_on fmap list_fmap run foldl handle].
    change (foldl (λ w0 rq, handle new_ObjectId rq w0) ?w0
              (list_fmap _ _ _ options))
      with (run new_ObjectId (votes_on (ObjectId_str oid) options) w0).
    rewrite Hvote. cbn [VoteRequest.option].
    rewrite !count_option_cons.
    destruct (vote_field_cases _ Ho) as [[-> _]|[-> _]].
    + change (String.eqb "a" "a") with true. cbn [snd].
      destruct (IH (mkWorld (Some (mkDatabase
                      (<[i := <["a_count" := VInt (x + 1)]> d]> (prompt D))))
                      (oid_count w))
                  (mkDatabase (<[i := <["a_count" := VInt (x + 1)]> d]>
                                 (prompt D)))
                  (<["a_count" := VInt (x + 1)]> d) (x + 1) y eq_refl)
        as (d' & Hd' & Hst & Ha' & Hb').
      * apply (extends_set_count (prompt D) i d "a_count" (x + 1) Hi); auto.
      * apply list_elem_of_insert. by eapply lookup_lt_Some.
      * by simplify_map_eq.
      * by simplify_map_eq.
      * by simplify_map_eq.
      * exists d'. split; [done|]. split.
        { rewrite Hst. unfold static_fields. by simplify_map_eq. }
        rewrite Ha', Hb'. split; do 2 f_equal; simpl; lia.
    + change (String.eqb "b" "a") with false. cbn [snd].
      destruct (IH (mkWorld (Some (mkDatabase
                      (<[i := <["b_count" := VInt (y + 1)]> d]> (prompt D))))
                      (oid_count w))
                  (mkDatabase (<[i := <["b_count" := VInt (y + 1)]> d]>
                                 (prompt D)))
                  (<["b_count" := VInt (y + 1)]> d) x (y + 1) eq_refl)
        as (d' & Hd' & Hst & Ha' & Hb').
      * apply (extends_set_count (prompt D) i d "b_count" (y + 1) Hi); auto.
      * apply list_elem_of_insert. by eapply lookup_lt_Some.
      * by simplify_map_eq.
      * by simplify_map_eq.
      * by simplify_map_eq.
      * exists d'. split; [done|]. split.
        { rewrite Hst. unfold static_fields. by simplify_map_eq. }
        rewrite Ha', Hb'. split; do 2 f_equal; simpl; lia.
Qed.

Lemma votes_accumulate_witness :
  store_wf (prompt sample_database)
  ∧ ∃ d',
      d' ∈ prompts (run counter_ObjectId
                      (votes_on (ObjectId_str (counter_ObjectId 0))
                                ["a"; "b"; "a"; "a"]) sample_world)
      ∧ d' !! "a_count" = Some (VInt 6) ∧ d' !! "b_count" = Some (VInt 6).
Proof.
  assert (store_wf (prompt sample_database)) as Hwf.
  { apply (bool_decide_unpack _). by vm_compute. }
  split; [exact Hwf|].
  destruct (votes_accumulate counter_ObjectId ["a"; "b"; "a"; "a"]
              sample_world sample_database (sample_prompt 0 3 5)
              (counter_ObjectId 0) 3 5 eq_refl Hwf)
    as (d' & Hd' & _ & Ha & Hb);
    [by repeat constructor | reflexivity | reflexivity | reflexivity
    | by repeat constructor |].
  exists d'. split; [exact Hd'|]. split; [exact Ha | exact Hb].
Defined.

(** ** Nothing is deleted, moved or counted down *)

Lemma count_le_refl (d : doc) (field : string) : count_le d d field.
Proof. intros x Hx. exists x. split; [done | lia]. Qed.

Global Instance grows_refl : Reflexive grows.
Proof.
  intros c i d Hi. exists d.
  split; [done|]. split; [done|]. split; apply count_le_refl.
Qed.

Global Instance grows_trans : Transitive grows.
Proof.
  intros c1 c2 c3 H12 H23 i d Hi.
  destruct (H12 i d Hi) as (d2 & Hi2 & Hst2 & Ha2 & Hb2).
  destruct (H23 i d2 Hi2) as (d3 & Hi3 & Hst3 & Ha3 & Hb3).
  exists d3. split; [done|]. split; [by rewrite Hst3|].
  split; intros x Hx.
  - destruct (Ha2 x Hx) as (x2 & Hx2 & ?). destruct (Ha3 x2 Hx2) as (x3 & ? & ?).
    exists x3. split; [done | lia].
  - destruct (Hb2 x Hx) as (x2 & Hx2 & ?). destruct (Hb3 x2 Hx2) as (x3 & ? & ?).
    exists x3. split; [done | lia].
Qed.

Lemma grows_app (c l : list doc) : grows c (c ++ l).
Proof.
  intros i d Hi. exists d. split; [by apply lookup_app_l_Some|].
  split; [done|]. split; apply count_le_refl.
Qed.

Lemma grows_set_count (c : list doc) (i : nat) (d : doc) (field : string)
    (x : Z) :
  c !! i = Some d → count_of d field = Some x →
  field = "a_count" ∨ field = "b_count" →
  grows c (<[i := <[field := VInt (x + 1)]> d]> c).
Proof.
  intros Hi Hx Hf j e Hj. destruct (decide (j = i)) as [->|Hne].
  - assert (e = d) as -> by congruence.
    exists (<[field := VInt (x + 1)]> d).
    split; [apply list_lookup_insert_eq; by eapply lookup_lt_Some|].
    split; [unfold static_fields; by destruct Hf as [-> | ->]; simplify_map_eq|].
    unfold count_of in Hx.
    destruct Hf as [-> | ->]; split; intros z Hz; simplify_map_eq;
      eauto with lia.
  - exists e. split; [by rewrite list_lookup_insert_ne|].
    split; [done|]. split; apply count_le_refl.
Qed.

Lemma vote_grows (body : VoteRequest.t) (w : World) :
  grows (prompts w) (prompts (vote body w).2).
Proof.
  rewrite vote_unfold. destruct (db w) as [D|] eqn:HD; [|done].
  destruct (ObjectId_init _) as [oid|]; [|done]. cbv zeta.
  assert (∃ field, field = (if String.eqb (VoteRequest.option body) "a"
                            then "a_count" else "b_count")
                   ∧ (field = "a_count" ∨ field = "b_count"))
    as (field & <- & Hf).
  { eexists. split; [done|]. destruct (String.eqb _ _); auto. }
  destruct (find_one_and_update_inc oid field w) as [[[u|]|e] w1] eqn:Hfind;
    apply find_one_and_update_inc_inv in Hfind.
  - destruct Hfind as (D' & i & d & x & HD' & Hi & _ & _ & Hx & -> & ->).
    assert (D' = D) as -> by congruence.
    unfold prompts. rewrite HD. simpl. by apply grows_set_count.
  - by destruct Hfind as [-> _].
  - by destruct Hfind as [-> _].
Qed.

Section appending.
Variable new_ObjectId : nat → ObjectId.

Lemma insert_seed_appends (a b : string) (w : World) :
  ∃ l : list doc, prompts (insert_one new_ObjectId (seed_doc a b) w).2
       = (prompts w ++ l)%list.
Proof.
  destruct (db w) as [D|] eqn:HD.
  - rewrite (insert_one_unfold _ _ w D HD (seed_doc_no_id a b)). cbv zeta.
    unfold prompts at 2. rewrite HD.
    case_bool_decide; unfold prompts; simpl; [exists []|eauto].
    by rewrite app_nil_r.
  - exists []. unfold insert_one, bind, collection. rewrite HD.
    by rewrite app_nil_r.
Qed.

Lemma seed_loop_appends (ps : list (string * string)) (w : World) :
  ∃ l : list doc, prompts (for_each ps
         (λ '(a, b),
            let* _ := insert_one new_ObjectId (seed_doc a b) in ret tt) w).2
       = (prompts w ++ l)%list.
Proof.
  revert w. induction ps as [|[a b] ps IH]; intros w.
  - exists []. by rewrite app_nil_r.
  - cbn [for_each]. unfold bind at 1, bind at 1.
    destruct (insert_seed_appends a b w) as [l1 Hl1].
    destruct (insert_one new_ObjectId (seed_doc a b) w) as [[x|e] w1];
      [|by exists l1].
    unfold ret at 1. destruct (IH w1) as [l2 Hl2].
    exists (l1 ++ l2)%list. rewrite Hl2. simpl in Hl1.
    by rewrite Hl1, app_assoc.
Qed.

Lemma ensure_seeded_appends (w : World) :
  ∃ l : list doc, prompts (_ensure_seeded new_ObjectId w).2 = (prompts w ++ l)%list.
Proof.
  rewrite ensure_seeded_unfold.
  destruct (db w) as [D|] eqn:HD; [|exists []; by rewrite app_nil_r].
  destruct (Nat.eqb _ _); [apply seed_loop_appends|].
  exists []. by rewrite app_nil_r.
Qed.

Lemma get_random_prompt_appends (rnd : nat) (w : World) :
  ∃ l : list doc, prompts (get_random_prompt new_ObjectId rnd w).2 = (prompts w ++ l)%list.
Proof.
  unfold get_random_prompt, bind at 1.
  destruct (ensure_seeded_appends w) as [l Hl]. exists l.
  destruct (_ensure_seeded new_ObjectId w) as [[u|e] w1]; [|done].
  simpl in Hl. rewrite <- Hl.
  unfold bind, aggregate_sample_1, bind, collection, ret.
  destruct (db w1); [|done].
  by destruct (match prompt _ with [] => [] | _ => _ end).
Qed.

Lemma create_prompt_appends (body : PromptCreate.t) (w : World) :
  ∃ l : list doc, prompts (create_prompt new_ObjectId body w).2 = (prompts w ++ l)%list.
Proof.
  destruct (db w) as [D|] eqn:HD.
  - rewrite (create_prompt_unfold _ _ _ _ HD). cbv zeta.
    unfold prompts at 2. rewrite HD.
    case_bool_decide; unfold prompts; simpl; [exists []|eauto].
    by rewrite app_nil_r.
  - exists []. unfold create_prompt, bind, db_is_None. rewrite HD.
    by rewrite app_nil_r.
Qed.

Lemma handle_grows (rq : request) (w : World) :
  grows (prompts w) (prompts (handle new_ObjectId rq w)).
Proof.
  destruct rq; simpl.
  - destruct (get_random_prompt_appends rnd w) as [l ->]. apply grows_app.
  - destruct (create_prompt_appends body w) as [l ->]. apply grows_app.
  - apply vote_grows.
  - by rewrite top_prompts_world.
Qed.

Lemma run_grows (rqs : list request) (w : World) :
  grows (prompts w) (prompts (run new_ObjectId rqs w)).
Proof.
  revert w. induction rqs as [|rq rqs IH]; intros w; [done|].
  simpl. etrans; [apply handle_grows | apply IH].
Qed.
End appending.

(** X7: whatever requests are handled, a stored prompt stays at its
    position in the collection with its identifier, options, category and
    creator unchanged, and its integer counts never go down: nothing is
    deleted, moved or counted down. *)
Theorem stored_prompts_only_grow (new_ObjectId : nat → ObjectId)
    (rqs : list request) (w : World) (i : nat) (d : doc) :
  prompts w !! i = Some d →
  ∃ d',
    prompts (run new_ObjectId rqs w) !! i = Some d'
    ∧ static_fields d' = static_fields d
    ∧ (∀ x, d !! "a_count" = Some (VInt x) →
            ∃ x', d' !! "a_count" = Some (VInt x') ∧ x ≤ x')
    ∧ (∀ y, d !! "b_count" = Some (VInt y) →
            ∃ y', d' !! "b_count" = Some (VInt y') ∧ y ≤ y').
Proof. intros Hi. exact (run_grows new_ObjectId rqs w i d Hi). Qed.

Lemma stored_prompts_only_grow_witness :
  prompts sample_world !! 1%nat = Some (sample_prompt 1 4 1)
  ∧ ∃ d',
      prompts (run counter_ObjectId
                 [Vote (VoteRequest.mk "654f1a2b0011223344000001" "b");
                  CreatePrompt (PromptCreate.mk "cats" "dogs" "pets" None);
                  GetRandomPrompt 7; TopPrompts 0]
                 sample_world) !! 1%nat = Some d'
      ∧ static_fields d' = static_fields (sample_prompt 1 4 1).
Proof.
  split; [reflexivity|].
  destruct (stored_prompts_only_grow counter_ObjectId
              [Vote (VoteRequest.mk "654f1a2b0011223344000001" "b");
               CreatePrompt (PromptCreate.mk "cats" "dogs" "pets" None);
               GetRandomPrompt 7; TopPrompts 0]
              sample_world 1 (sample_prompt 1 4 1) eq_refl)
    as (d' & Hd' & Hst & _).
  exists d'. split; [exact Hd' | exact Hst].
Defined.

(** X8: a request other than a vote leaves the documents already stored
    exactly as they are and in place: the collection after it is the
    collection before it with documents appended, if any. *)
Theorem non_vote_requests_append (new_ObjectId : nat → ObjectId)
    (rq : request) (w : World) :
  (∀ body, rq ≠ Vote body) →
  ∃ l : list doc, prompts (handle new_ObjectId rq w) = (prompts w ++ l)%list.
Proof.
  intros Hrq. destruct rq; simpl.
  - apply get_random_prompt_appends.
  - apply create_prompt_appends.
  - by destruct (Hrq body).
  - exists []. by rewrite top_prompts_world, app_nil_r.
Qed.

Lemma non_vote_requests_append_witness :
  (∀ body, CreatePrompt (PromptCreate.mk "cats" "dogs" "pets" None)
           ≠ Vote body)
  ∧ ∃ l : list doc, prompts (handle counter_ObjectId
                    (CreatePrompt (PromptCreate.mk "cats" "dogs" "pets" None))
                    sample_world)
         = (prompts sample_world ++ l)%list.
Proof.
  assert (∀ body, CreatePrompt (PromptCreate.mk "cats" "dogs" "pets" None)
                  ≠ Vote body) as Hrq by (intros body; discriminate).
  split; [exact Hrq|].
  exact (non_vote_requests_append counter_ObjectId _ sample_world Hrq).
Defined.

(** X9: from an empty collection, whatever requests are handled (and
    however they are answered), every stored document is a prompt as the
    service writes it (an [ObjectId] under ["_id"], string options and
    category, creator a string or [None], integer counts) and no two
    stored documents share an identifier. *)
Theorem reachable_store_wf (new_ObjectId : nat → ObjectId)
    (rqs : list request) (w : World) :
  prompts w = [] →
  Forall (λ d, prompt_doc d = true) (prompts (run new_ObjectId rqs w))
  ∧ NoDup ((λ d : doc, d !! "_id") <$> prompts (run new_ObjectId rqs w)).
Proof.
  intros Hw. destruct (run_extends new_ObjectId rqs w) as [Hwf _].
  apply Hwf. rewrite Hw. split; constructor.
Qed.

Lemma reachable_store_wf_witness :
  prompts empty_world = []
  ∧ NoDup ((λ d : doc, d !! "_id")
           <$> prompts (run counter_ObjectId
                          [GetRandomPrompt 3;
                           CreatePrompt
                             (PromptCreate.mk "cats" "dogs" "pets" None);
                           Vote (VoteRequest.mk "654f1a2b0011223344000006" "a")]
                          empty_world)).
Proof.
  split; [reflexivity|].
  apply (reachable_store_wf counter_ObjectId
           [GetRandomPrompt 3;
            CreatePrompt (PromptCreate.mk "cats" "dogs" "pets" None);
            Vote (VoteRequest.mk "654f1a2b0011223344000006" "a")]
           empty_world eq_refl).
Defined.

(** ** More on ranking *)

Lemma result_map_take {A B} (f : A → result B) (xs : list A) (ys : list B)
    (n : nat) :
  result_map f xs = Ok ys → result_map f (take n xs) = Ok (take n ys).
Proof.
  rewrite !result_map_Forall2. apply Forall2_take.
Qed.

Global Instance key_ge_trans : Transitive key_ge.
Proof.
  intros x y z. unfold key_ge. intros Hxy Hyz Hxz.
  destruct (trichotomyT lexico y z) as [[H|H]|H];
    [done | rewrite <- H in Hxz; done |].
  destruct (trichotomyT lexico x y) as [[H'|H']|H'];
    [done | rewrite H' in Hxz |].
  - apply (irreflexivity lexico y). by transitivity z.
  - apply (irreflexivity lexico y).
    transitivity z; [|done]. by transitivity x.
Qed.

Global Instance key_ge_antisymm : AntiSymm (=) key_ge.
Proof.
  intros x y Hxy Hyx. unfold key_ge in *.
  by destruct (trichotomyT lexico x y) as [[H|H]|H].
Qed.

(** Two descending orders of the same documents differ in the order of
    equal keys only: their key sequences are the same. *)
Lemma sorted_keys_unique (l1 l2 : list doc) :
  Sorted sorts_before l1 → Sorted sorts_before l2 → l1 ≡ₚ l2 →
  sort_key <$> l1 = sort_key <$> l2.
Proof.
  intros H1 H2 Hp. apply (Sorted_unique key_ge).
  - by apply (Sorted_fmap sort_key sorts_before key_ge).
  - by apply (Sorted_fmap sort_key sorts_before key_ge).
  - by rewrite Hp.
Qed.

Lemma serialize_counts_keys (ds : list doc) (rs : list PromptResponse.t) :
  Forall (λ d, prompt_doc d = true) ds →
  result_map _serialize ds = Ok rs →
  response_counts <$> rs = key_counts <$> (sort_key <$> ds).
Proof.
  intros Hwf HF%result_map_Forall2.
  induction HF as [|d r ds rs Hd HF IH]; [done|].
  apply Forall_cons in Hwf as [Hwd Hwf]. rewrite !fmap_cons.
  f_equal; [|by apply IH].
  destruct (serialize_wf_inv d r Hwd Hd)
    as (o & _ & _ & _ & _ & _ & _ & Ha & Hb).
  unfold response_counts, key_counts, sort_key. by rewrite Ha, Hb.
Qed.

(** X10: in a well-formed store, a ranking with a positive limit never
    writes, has exactly min(limit, number of stored prompts) records, and
    its sequence of (a_count, b_count) pairs is the first [limit] pairs
    of every full descending order of the collection, whichever way that
    order places prompts with equal counts. *)
Theorem top_prompts_counts_prefix (w : World) (D : Database) (limit : Z) :
  db w = Some D → store_wf (prompt D) → 0 < limit →
  ∃ rs,
    top_prompts limit w = (Ok rs, w)
    ∧ length rs = (Z.to_nat limit `min` length (prompt D))%nat
    ∧ ∀ ranked, Sorted sorts_before ranked → ranked ≡ₚ prompt D →
        ∃ all,
          result_map _serialize ranked = Ok all
          ∧ response_counts <$> rs
            = take (Z.to_nat limit) (response_counts <$> all).
Proof.
  intros HD [Hall _] Hl.
  pose proof (Sorted_merge_sort sorts_before (prompt D)) as Hs.
  pose proof (merge_sort_Permutation sorts_before (prompt D)) as Hp.
  assert (Forall (λ d, prompt_doc d = true)
            (merge_sort sorts_before (prompt D))) as Hwf by by rewrite Hp.
  destruct (result_map_serialize_wf _ Hwf) as [all0 Hall0].
  exists (take (Z.to_nat limit) all0).
  rewrite (top_prompts_unfold limit w D HD).
  destruct (Z.eqb_spec limit 0) as [|_]; [lia|].
  rewrite Zabs2Nat.abs_nat_nonneg by lia.
  rewrite (result_map_take _ _ _ _ Hall0). split; [done|]. split.
  { pose proof Hall0 as HF. apply result_map_Forall2 in HF.
    by rewrite length_take, <- (Forall2_length _ _ _ HF), Hp. }
  intros ranked Hsr Hpr.
  assert (Forall (λ d, prompt_doc d = true) ranked) as Hwr by by rewrite Hpr.
  destruct (result_map_serialize_wf _ Hwr) as [all Hallr].
  exists all. split; [done|].
  rewrite fmap_take, (serialize_counts_keys _ _ Hwf Hall0),
    (serialize_counts_keys _ _ Hwr Hallr).
  do 2 f_equal. apply sorted_keys_unique; [done..|]. by rewrite Hp, Hpr.
Qed.

Lemma top_prompts_counts_prefix_witness :
  store_wf (prompt sample_database)
  ∧ ∃ rs,
      top_prompts 2 sample_world = (Ok rs, sample_world)
      ∧ length rs = 2%nat.
Proof.
  assert (store_wf (prompt sample_database)) as Hwf.
  { apply (bool_decide_unpack _). by vm_compute. }
  split; [exact Hwf|].
  destruct (top_prompts_counts_prefix sample_world sample_database 2
              eq_refl Hwf eq_refl) as (rs & Hrs & Hlen & _).
  exists rs. split; [exact Hrs | exact Hlen].
Defined.

(** X11: in a well-formed store, the first record of any ranking is a
    maximum of the collection: no stored prompt has a larger a_count, and
    none with the same a_count has a larger b_count. *)
Theorem top_head_is_max (limit : Z) (w w' : World) (D : Database)
    (r : PromptResponse.t) (rs : list PromptResponse.t) :
  db w = Some D → store_wf (prompt D) →
  top_prompts limit w = (Ok (r :: rs), w') →
  ∀ d r0, d ∈ prompt D → _serialize d = Ok r0 →
    PromptResponse.a_count r0 ≤ PromptResponse.a_count r
    ∧ (PromptResponse.a_count r0 = PromptResponse.a_count r →
       PromptResponse.b_count r0 ≤ PromptResponse.b_count r).
Proof.
  intros HD [Hall Hnd]. rewrite (top_prompts_unfold limit w D HD).
  pose proof (StronglySorted_merge_sort sorts_before (prompt D)) as Hss.
  pose proof (merge_sort_Permutation sorts_before (prompt D)) as Hperm.
  assert (Forall (λ d, prompt_doc d = true)
                 (merge_sort sorts_before (prompt D))) as Hwf
    by (by rewrite Hperm).
  revert Hss Hperm Hwf. generalize (merge_sort sorts_before (prompt D)).
  intros sorted Hss Hperm Hwf Htop d r0 Hd Hs0.
  assert (∃ d1 tl, sorted = d1 :: tl ∧ _serialize d1 = Ok r)
    as (d1 & tl & -> & Hs1).
  { injection Htop as Htop _. apply result_map_Forall2 in Htop.
    destruct sorted as [|d1 tl].
    - destruct (limit =? 0); [|rewrite take_nil in Htop];
        by apply Forall2_nil_inv_l in Htop.
    - exists d1, tl. split; [done|].
      destruct (limit =? 0).
      + by apply Forall2_cons_1 in Htop as [? _].
      + destruct (Z.abs_nat limit); simpl in Htop;
          [by apply Forall2_nil_inv_l in Htop|].
        by apply Forall2_cons_1 in Htop as [? _]. }
  apply StronglySorted_inv in Hss as [_ Hhd].
  assert (prompt_doc d1 = true) as Hpd1 by (by apply Forall_cons in Hwf as [? _]).
  assert (prompt_doc d = true) as Hpd.
  { apply list_elem_of_lookup in Hd as [k Hk].
    exact (Forall_lookup_1 _ _ _ _ Hall Hk). }
  destruct (serialize_wf_inv d1 r Hpd1 Hs1)
    as (_ & _ & _ & _ & _ & _ & _ & Ha1 & Hb1).
  destruct (serialize_wf_inv d r0 Hpd Hs0)
    as (_ & _ & _ & _ & _ & _ & _ & Ha & Hb).
  rewrite <- Hperm in Hd. apply elem_of_cons in Hd as [->|Hd].
  - assert (r0 = r) as -> by congruence. split; [lia|]. intros _. lia.
  - rewrite Forall_forall in Hhd.
    destruct (sorts_before_counts d1 d _ _ _ _ Ha1 Hb1 Ha Hb (Hhd d Hd))
      as [H1 H2].
    split; [done|]. intros E. by apply H2.
Qed.

Lemma top_head_is_max_witness :
  store_wf (prompt sample_database)
  ∧ top_prompts 1 sample_world = (Ok [sample_response 2 4 2], sample_world)
  ∧ _serialize (sample_prompt 0 3 5) = Ok (sample_response 0 3 5)
  ∧ PromptResponse.a_count (sample_response 0 3 5)
    ≤ PromptResponse.a_count (sample_response 2 4 2).
Proof.
  assert (store_wf (prompt sample_database)) as Hwf.
  { apply (bool_decide_unpack _). by vm_compute. }
  assert (top_prompts 1 sample_world
          = (Ok [sample_response 2 4 2], sample_world)) as Htop
    by (vm_compute; reflexivity).
  assert (_serialize (sample_prompt 0 3 5) = Ok (sample_response 0 3 5))
    as Hs by (vm_compute; reflexivity).
  split; [exact Hwf|]. split; [exact Htop|]. split; [exact Hs|].
  destruct (top_head_is_max 1 sample_world sample_world sample_database
              (sample_response 2 4 2) [] eq_refl Hwf Htop
              (sample_prompt 0 3 5) (sample_response 0 3 5)) as [Hle _];
    [by repeat constructor | exact Hs | exact Hle].
Defined.

(** ** The random-prompt route on a stocked collection *)

(** X12: on a configured, non-empty, well-formed collection the
    random-prompt route seeds nothing and generates no identifier: the
    world is unchanged, and the answer is the serialisation of the stored
    prompt that the sample selects. *)
Theorem get_random_prompt_stored (new_ObjectId : nat → ObjectId) (rnd : nat)
    (w : World) (D : Database) :
  db w = Some D → prompt D ≠ [] → store_wf (prompt D) →
  ∃ d r,
    prompt D !! (rnd mod length (prompt D))%nat = Some d
    ∧ _serialize d = Ok r
    ∧ get_random_prompt new_ObjectId rnd w = (Ok r, w).
Proof.
  intros HD Hne [Hall _].
  assert (rnd mod length (prompt D) < length (prompt D))%nat as Hlt.
  { apply Nat.mod_upper_bound. by destruct (prompt D). }
  destruct (lookup_lt_is_Some_2 _ _ Hlt) as [d Hd].
  destruct (serialize_prompt_doc d (Forall_lookup_1 _ _ _ _ Hall Hd))
    as [r Hr].
  exists d, r. split; [done|]. split; [done|].
  unfold get_random_prompt, bind at 1. rewrite ensure_seeded_unfold, HD.
  destruct (prompt D) as [|d0 c'] eqn:Hc; [done|].
  cbn [length Nat.eqb].
  unfold bind at 1, aggregate_sample_1, bind at 1, collection. rewrite HD, Hc.
  unfold ret. rewrite (drop_S _ _ _ Hd), firstn_cons.
  unfold lift. by rewrite Hr.
Qed.

Lemma get_random_prompt_stored_witness :
  store_wf (prompt sample_database)
  ∧ get_random_prompt counter_ObjectId 7 sample_world
    = (Ok (sample_response 1 4 1), sample_world).
Proof.
  assert (store_wf (prompt sample_database)) as Hwf.
  { apply (bool_decide_unpack _). by vm_compute. }
  split; [exact Hwf|].
  destruct (get_random_prompt_stored counter_ObjectId 7 sample_world
              sample_database eq_refl ltac:(done) Hwf)
    as (d & r & Hd & Hr & Hget).
  rewrite Hget. f_equal. rewrite <- Hr.
  injection Hd as <-. vm_compute. reflexivity.
Defined.

Section seeding_once.
Variable new_ObjectId : nat → ObjectId.

(** X13: seeding happens once: after a call of [_ensure_seeded] that
    returned, a further call returns too and changes nothing, and so does
    every further random-prompt request leave the collection as it is. *)
Theorem ensure_seeded_once (w w1 : World) (rnd : nat) :
  _ensure_seeded new_ObjectId w = (Ok tt, w1) →
  _ensure_seeded new_ObjectId w1 = (Ok tt, w1)
  ∧ (get_random_prompt new_ObjectId rnd w1).2 = w1.
Proof.
  intros Hne%ensure_seeded_Ok_nonempty.
  assert (_ensure_seeded new_ObjectId w1 = (Ok tt, w1)) as Hagain.
  { rewrite ensure_seeded_unfold. revert Hne. unfold prompts.
    destruct (db w1) as [D|]; [|done]. by destruct (prompt D). }
  split; [done|].
  unfold get_random_prompt, bind at 1. rewrite Hagain.
  unfold bind, aggregate_sample_1, bind, collection, ret.
  destruct (db w1); [|done].
  by destruct (match prompt _ with [] => [] | _ => _ end).
Qed.
End seeding_once.

Lemma ensure_seeded_once_witness :
  _ensure_seeded counter_ObjectId empty_world
  = (Ok tt, mkWorld (Some (mkDatabase (seeded_from counter_ObjectId 0))) 6)
  ∧ _ensure_seeded counter_ObjectId
      (mkWorld (Some (mkDatabase (seeded_from counter_ObjectId 0))) 6)
    = (Ok tt, mkWorld (Some (mkDatabase (seeded_from counter_ObjectId 0))) 6).
Proof.
  assert (_ensure_seeded counter_ObjectId empty_world
          = (Ok tt,
             mkWorld (Some (mkDatabase (seeded_from counter_ObjectId 0))) 6))
    as Hseed by (vm_compute; reflexivity).
  split; [exact Hseed|].
  exact (proj1 (ensure_seeded_once counter_ObjectId empty_world _ 0 Hseed)).
Defined.

(** ** Serialisation on documents of any shape *)

(** X14: [_serialize] reads seven keys only: writing any other key into a
    document does not change its serialisation, be it an answer or an
    exception. *)
Theorem serialize_ignores_other_keys (d : doc) (k : string) (v : value) :
  k ∉ ["_id"; "option_a"; "option_b"; "category"; "created_by"; "a_count";
       "b_count"] →
  _serialize (<[k := v]> d) = _serialize d.
Proof.
  intros Hk. unfold _serialize, dict_get.
  rewrite !lookup_insert_ne; [done|..];
    intros ->; apply Hk; set_solver.
Qed.

Lemma serialize_ignores_other_keys_witness :
  _serialize (<["tags" := VStr "fun"]> (sample_prompt 0 3 5))
  = _serialize (sample_prompt 0 3 5).
Proof.
  apply (serialize_ignores_other_keys (sample_prompt 0 3 5) "tags"
           (VStr "fun")).
  apply (bool_decide_unpack _). by vm_compute.
Defined.

(** X15: the defaults of [_serialize]: a document with string options
    that lacks ["category"], ["created_by"], ["a_count"] and ["b_count"]
    is served with category "general", no creator and both counts 0; its
    id is the text of its ["_id"], or "None" when that is missing too. *)
Theorem serialize_defaults (d : doc) (oa ob : string) :
  d !! "option_a" = Some (VStr oa) → d !! "option_b" = Some (VStr ob) →
  d !! "category" = None → d !! "created_by" = None →
  d !! "a_count" = None → d !! "b_count" = None →
  _serialize d
  = Ok (PromptResponse.mk (from_option py_str "None" (d !! "_id"))
          oa ob "general" None 0 0).
Proof.
  intros H1 H2 H3 H4 H5 H6. unfold _serialize, dict_get.
  rewrite H1, H2, H3, H4, H5, H6. simpl. by destruct (d !! "_id").
Qed.

Lemma serialize_defaults_witness :
  _serialize {[ "option_a" := VStr "tea"; "option_b" := VStr "coffee" ]}
  = Ok (PromptResponse.mk "None" "tea" "coffee" "general" None 0 0).
Proof.
  exact (serialize_defaults
           {[ "option_a" := VStr "tea"; "option_b" := VStr "coffee" ]}
           "tea" "coffee" eq_refl eq_refl eq_refl eq_refl eq_refl eq_refl).
Defined.

(** X16: [_serialize] answers only for documents whose two options are
    strings: when ["option_a"] or ["option_b"] is missing, [None] or any
    other non-string, it raises (a 500 for the request), and what it
    raises is never an [HTTPException]. *)
Theorem serialize_needs_options (d : doc) :
  (∀ s, d !! "option_a" ≠ Some (VStr s))
  ∨ (∀ s, d !! "option_b" ≠ Some (VStr s)) →
  ∃ e, _serialize d = Raise e
       ∧ (e = TypeError ∨ e = ValueError ∨ e = ValidationError)
       ∧ http_status (_serialize d) = 500.
Proof.
  intros Hopt.
  destruct (_serialize d) as [r|e] eqn:Hs.
  - exfalso. revert Hs. unfold _serialize, result_bind.
    destruct (py_int _); [|done]. destruct (py_int _); [|done].
    unfold PromptResponse.str_field.
    destruct (d !! "option_a") as [[|sa| |]|] eqn:Ha; try done.
    destruct (d !! "option_b") as [[|sb| |]|] eqn:Hb; try done.
    destruct Hopt as [H|H]; [by destruct (H sa) | by destruct (H sb)].
  - exists e. split; [done|].
    pose proof (serialize_raises d e Hs) as He.
    split; [done|]. by destruct He as [->|[->| ->]].
Qed.

Lemma serialize_needs_options_witness :
  ∃ e, _serialize {[ "option_b" := VStr "coffee"; "a_count" := VInt 2 ]}
       = Raise e.
Proof.
  destruct (serialize_needs_options
              {[ "option_b" := VStr "coffee"; "a_count" := VInt 2 ]})
    as (e & He & _); [|by exists e].
  left. intros s. by vm_compute.
Defined.

(** ** The diagnostic route *)

Lemma py_prefix_len (n : nat) (s : string) :
  (py_len (py_prefix n s) ≤ n)%nat.
Proof.
  revert n. induction s as [|c s IH]; intros n; simpl; [lia|].
  destruct (utf8_continuation c) eqn:Hc; simpl.
  - rewrite Hc. specialize (IH n). lia.
  - destruct n as [|n]; simpl; [lia|]. rewrite Hc. specialize (IH n). lia.
Qed.

Lemma py_prefix_len_exact (n : nat) (s : string) :
  (n ≤ py_len s)%nat → py_len (py_prefix n s) = n.
Proof.
  revert n. induction s as [|c s IH]; intros n; simpl; [lia|].
  destruct (utf8_continuation c) eqn:Hc; simpl.
  - rewrite Hc. intros Hn. simpl. apply IH. lia.
  - destruct n as [|n]; simpl; [done|]. rewrite Hc. intros Hn.
    rewrite IH; lia.
Qed.

Lemma py_prefix_whole (n : nat) (s : string) :
  (py_len s ≤ n)%nat → py_prefix n s = s.
Proof.
  revert n. induction s as [|c s IH]; intros n; simpl; [done|].
  destruct (utf8_continuation c) eqn:Hc; simpl.
  - intros Hn. f_equal. apply IH. lia.
  - destruct n as [|n]; [lia|]. intros Hn. f_equal. apply IH. lia.
Qed.

Lemma py_prefix_is_prefix (n : nat) (s : string) :
  ∃ rest, s = py_prefix n s +:+ rest.
Proof.
  revert n. induction s as [|c s IH]; intros n; [by exists ""|].
  simpl. destruct (utf8_continuation c).
  - destruct (IH n) as [rest Hrest]. exists rest.
    change (String c s = String c (py_prefix n s +:+ rest)). by f_equal.
  - destruct n as [|n]; [by exists (String c s)|].
    destruct (IH n) as [rest Hrest]. exists rest.
    change (String c s = String c (py_prefix n s +:+ rest)). by f_equal.
Qed.

(** X17: when listing the collections raises, [test_database] still
    answers: ["database"] is the error mark followed by the first 100
    characters of the exception text (the whole text when it has no more
    than 100 characters, counted as characters and not as bytes), no
    collection is listed, while ["connection_status"] stays "Connected"
    and the name and URL entries written before the failure stay as
    written. *)
Theorem test_database_listing_fails (h : Diagnostics.handle)
    (DATABASE_URL : option string) (e : string) :
  Diagnostics.list_collection_names h = inl e →
  ∃ msg,
    Diagnostics.database (Diagnostics.test_database (Some h) DATABASE_URL)
    = "❌ Error: " +:+ msg
    ∧ (py_len msg ≤ 100)%nat
    ∧ (∃ rest, e = msg +:+ rest)
    ∧ ((py_len e ≤ 100)%nat → msg = e)
    ∧ ((100 ≤ py_len e)%nat → py_len msg = 100%nat)
    ∧ Diagnostics.collections
        (Diagnostics.test_database (Some h) DATABASE_URL) = []
    ∧ Diagnostics.connection_status
        (Diagnostics.test_database (Some h) DATABASE_URL) = "Connected"
    ∧ Diagnostics.database_name
        (Diagnostics.test_database (Some h) DATABASE_URL)
      = Some (default "Unknown" (Diagnostics.name h))
    ∧ is_Some (Diagnostics.database_url
                 (Diagnostics.test_database (Some h) DATABASE_URL)).
Proof.
  intros He. exists (py_prefix 100 e).
  unfold Diagnostics.test_database. rewrite He.
  cbn [Diagnostics.database Diagnostics.collections
       Diagnostics.connection_status Diagnostics.database_name
       Diagnostics.database_url].
  split_and!; try done.
  - apply py_prefix_len.
  - apply py_prefix_is_prefix.
  - apply py_prefix_whole.
  - apply py_prefix_len_exact.
Qed.

Lemma test_database_listing_fails_witness :
  String.length accented_text = 120%nat
  ∧ py_len accented_text = 60%nat
  ∧ ∃ msg,
      Diagnostics.database
        (Diagnostics.test_database
           (Some (Diagnostics.mkHandle (Some "wyr") (inl accented_text)))
           (Some "mongodb://localhost"))
      = "❌ Error: " +:+ msg
      ∧ msg = accented_text.
Proof.
  split; [reflexivity|]. split; [reflexivity|].
  destruct (test_database_listing_fails
              (Diagnostics.mkHandle (Some "wyr") (inl accented_text))
              (Some "mongodb://localhost") accented_text eq_refl)
    as (msg & Hdb & _ & _ & Hwhole & _).
  exists msg. split; [exact Hdb|]. apply Hwhole.
  change (py_len accented_text) with 60%nat. lia.
Defined.

(** X18: [test_database] answers whatever the handle and the environment
    are: the backend is reported running; at most 10 collections are
    listed, the first 10 of the listing when it succeeds; without a handle
    nothing is reported connected; and the URL entry says "Set" exactly
    when a handle exists and DATABASE_URL is set to a non-empty text. *)
Theorem test_database_report (db : option Diagnostics.handle)
    (DATABASE_URL : option string) :
  Diagnostics.backend (Diagnostics.test_database db DATABASE_URL)
  = "✅ Running"
  ∧ (length (Diagnostics.collections
               (Diagnostics.test_database db DATABASE_URL)) ≤ 10)%nat
  ∧ (∀ h cs, db = Some h → Diagnostics.list_collection_names h = inr cs →
       Diagnostics.collections (Diagnostics.test_database db DATABASE_URL)
       = take 10 cs
       ∧ Diagnostics.database (Diagnostics.test_database db DATABASE_URL)
         = "✅ Available")
  ∧ (db = None →
       Diagnostics.test_database db DATABASE_URL
       = Diagnostics.mkResponse "✅ Running"
           "⚠️ Available but not initialized" None None "Not Connected" [])
  ∧ (Diagnostics.database_url (Diagnostics.test_database db DATABASE_URL)
     = Some "✅ Set"
     ↔ is_Some db ∧ ∃ s, DATABASE_URL = Some s ∧ s ≠ "").
Proof.
  assert (∀ h : Diagnostics.handle,
            Some (if Diagnostics.env_set DATABASE_URL
                  then "✅ Set" else "❌ Not Set") = Some "✅ Set"
            ↔ is_Some (Some h) ∧ ∃ s, DATABASE_URL = Some s ∧ s ≠ "")
    as Hurl.
  { intros h. destruct DATABASE_URL as [[|c s]|]; simpl; split; try done.
    - by intros [_ (s & [= <-] & Hs)].
    - intros _. split; [by eexists|]. by eexists.
    - by intros [_ (s & [=] & _)]. }
  unfold Diagnostics.test_database. destruct db as [h|].
  - destruct (Diagnostics.list_collection_names h) as [e|cs] eqn:Hl;
      cbn [Diagnostics.backend Diagnostics.collections Diagnostics.database
           Diagnostics.database_url].
    + split; [done|]. split; [simpl; lia|].
      split; [intros h' cs' Hh Hl'; simplify_eq; congruence|].
      split; [done|]. apply Hurl.
    + split; [done|]. split; [rewrite length_take; lia|].
      split; [intros h' cs' Hh Hl'; simplify_eq; by rewrite Hl in Hl';
              simplify_eq|].
      split; [done|]. apply Hurl.
  - cbn [Diagnostics.backend Diagnostics.collections Diagnostics.database
         Diagnostics.database_url].
    split; [done|]. split; [simpl; lia|]. split; [done|]. split; [done|].
    split; [done|]. by intros [[? [=]] _].
Qed.
